(** * cryptostonksbot: a shallow embedding of [main.go]

    The bot relays CoinGecko market data into Telegram chats.  This file
    embeds the identifier cache ([loadCoinIDs]), the price query
    ([lookupPrice], [queryMessage]), the what-if computation ([ifIBought]),
    the sticker trigger ([doIt]) and the text handlers registered in [main].

    Conventions of the embedding.
    - Go [string]s are byte strings ([string] of Rocq); [strings.ToLower],
      [strings.ToUpper] and [strings.Fields] are given on ASCII bytes, bytes
      above 127 are left as they are.
    - Go [int] and [uint64] are [Z]; [float64] is the primitive binary64
      [float].
    - A Go function returning [(T, error)] whose value is ignored on error
      returns [result T]; [strconv.Atoi] and [strconv.ParseFloat], whose value
      the handler may read after an error, return a pair.
    - Code outside the repository whose behaviour is an input of the program
      (the CoinGecko client, encoding/json, text/template, accounting, goment,
      the clock, the random source) is taken as data: the client is the [gc]
      field of [coinQuerier], the rest is the record [Libraries].
    - [log.Println] and [b.Send] are recorded as a trace of [event]s (a log
      line without its time stamp, a message with the chat it goes to), a
      [panic] ends the computation with [Panicked].
    - The mutex [idMapUpdating] serialises [loadCoinIDs] and [lookupPrice];
      the embedding is sequential and runs each call as one step.
    - The loop of [backgroundIDUpdates] has no end: it is run for as many
      passes as there are answers of the service to run it on.
    - Left out: the start-up of [main].  The earlier revision of the file,
      without [/whatif] and inline queries, strips the [%] of a query inside
      [queryMessage] instead of in the handler and is otherwise the same
      code; its text handler is [Rev0.onText]. *)

From Stdlib Require Import ZArith QArith Ascii String Floats DecimalString Uint63.
From stdpp Require Import base option list strings gmap.

Local Open Scope Z_scope.

(** ** Strings *)

Module strs.

Definition dquote : string := String "034"%char EmptyString.

Fixpoint map_bytes (f : ascii → ascii) (s : string) : string :=
  match s with
  | EmptyString => EmptyString
  | String c s' => String (f c) (map_bytes f s')
  end.

Definition lower_byte (c : ascii) : ascii :=
  let n := N_of_ascii c in
  if ((65 <=? n) && (n <=? 90))%N then ascii_of_N (n + 32) else c.

Definition upper_byte (c : ascii) : ascii :=
  let n := N_of_ascii c in
  if ((97 <=? n) && (n <=? 122))%N then ascii_of_N (n - 32) else c.

(** [strings.ToLower], [strings.ToUpper] *)
Definition ToLower : string → string := map_bytes lower_byte.
Definition ToUpper : string → string := map_bytes upper_byte.

(** [strings.HasPrefix] *)
Definition HasPrefix (s p : string) : bool := String.prefix p s.

(** The white space of [strings.Fields]: tab, line feed, vertical tab,
    form feed, carriage return and space. *)
Definition isSpace (c : ascii) : bool :=
  let n := N_of_ascii c in
  ((n =? 32) || ((9 <=? n) && (n <=? 13)))%N.

Fixpoint Fields_from (cur : string) (s : string) : list string :=
  match s with
  | EmptyString => if decide (cur = EmptyString) then [] else [cur]
  | String c s' =>
      if isSpace c
      then (if decide (cur = EmptyString) then Fields_from EmptyString s'
            else cur :: Fields_from EmptyString s')
      else Fields_from (cur +:+ String c EmptyString) s'
  end.

(** [strings.Fields] *)
Definition Fields (s : string) : list string := Fields_from EmptyString s.

(** The verb [%d] of [fmt] on an [int]. *)
Definition itoa (n : Z) : string := NilZero.string_of_int (Z.to_int n).

End strs.

(** ** Errors *)

(** [cgErr], main.go:71-77. *)
Record cgErr := { Value : string }.

Global Instance cgErr_eq_dec : EqDecision cgErr.
Proof. solve_decision. Defined.

(** Go [error] values: the ones the program builds, and the ones that reach
    it from libraries, which carry a text and may wrap a cause. *)
Inductive error : Type :=
| errorString (msg : string)              (* errors.New, fmt.Errorf without %w *)
| cgErrValue (v : cgErr)                  (* a cgErr used as an error *)
| DeadlineExceeded                        (* context.DeadlineExceeded *)
| wrapError (msg : string) (cause : error). (* an error with text msg that unwraps to cause *)

Global Instance error_eq_dec : EqDecision error.
Proof. solve_decision. Defined.

(** The method [Error()]; for a [cgErr] it is main.go:75-77. *)
Definition Error (e : error) : string :=
  match e with
  | errorString msg => msg
  | cgErrValue v => Value v
  | DeadlineExceeded => "context deadline exceeded"
  | wrapError msg _ => msg
  end.

(** [errors.Is]: [target] is found along the chain of causes. *)
Fixpoint errors_Is (err target : error) : bool :=
  bool_decide (err = target) ||
  match err with
  | wrapError _ cause => errors_Is cause target
  | _ => false
  end.

Definition result (A : Type) : Type := error + A.

(** main.go:38 *)
Definition errInvalidCurrency : cgErr := {| Value := "invalid vs_currency" |}.

(** ** strconv.Atoi on a 64-bit platform *)

Module strconv.

Definition ErrSyntax : error := errorString "invalid syntax".
Definition ErrRange : error := errorString "value out of range".

(** The text of a [*NumError]; the escaping done by [strconv.Quote] is left
    out, the program never reads this text. *)
Definition NumError (fn num : string) (err : error) : error :=
  wrapError ("strconv." +:+ fn +:+ ": parsing " +:+ strs.dquote +:+ num
             +:+ strs.dquote +:+ ": " +:+ Error err) err.

Definition digit (c : ascii) : option Z :=
  let n := Z.of_N (N_of_ascii c) in
  if (48 <=? n) && (n <=? 57) then Some (n - 48) else None.

Fixpoint digits (acc : Z) (s : string) : option Z :=
  match s with
  | EmptyString => Some acc
  | String c s' => match digit c with
                   | Some d => digits (acc * 10 + d) s'
                   | None => None
                   end
  end.

(** An optional sign, then one or more decimal digits. *)
Definition parse (s : string) : option Z :=
  match s with
  | EmptyString => None
  | String c s' =>
      if decide (c = "-"%char) then
        (if decide (s' = EmptyString) then None else Z.opp <$> digits 0 s')
      else if decide (c = "+"%char) then
        (if decide (s' = EmptyString) then None else digits 0 s')
      else digits 0 s
  end.

Definition maxInt : Z := 2 ^ 63 - 1.
Definition minInt : Z := - 2 ^ 63.

(** [strconv.Atoi]: the value is 0 on a syntax error and the nearest bound
    on a range error. *)
Definition Atoi (s : string) : Z * option error :=
  match parse s with
  | None => (0, Some (NumError "Atoi" s ErrSyntax))
  | Some n =>
      if maxInt <? n then (maxInt, Some (NumError "Atoi" s ErrRange))
      else if n <? minInt then (minInt, Some (NumError "Atoi" s ErrRange))
      else (n, None)
  end.

End strconv.

(** ** Data of the CoinGecko client (go-gecko, package types)

    Only the fields that the program reads are kept. *)

Module CoinsListItem.
Record t := { ID : string; Symbol : string; Name : string }.
End CoinsListItem.

Module CoinsMarketItem.
Record t := {
  ID : string;
  Symbol : string;
  Name : string;
  CurrentPrice : float;
  MarketCap : float;
  High24 : float;
  Low24 : float;
  PriceChange24h : float;
  PriceChangePercentage24h : float;
  MarketCapChangePercentage24h : float;
  ATH : float;
  ATHDate : string
}.

(** The zero value [types.CoinsMarketItem{}]. *)
Definition zero : t :=
  {| ID := ""; Symbol := ""; Name := ""; CurrentPrice := 0; MarketCap := 0;
     High24 := 0; Low24 := 0; PriceChange24h := 0; PriceChangePercentage24h := 0;
     MarketCapChangePercentage24h := 0; ATH := 0; ATHDate := "" |}.
End CoinsMarketItem.

Module MarketDataItem.
Record t := { CurrentPrice : gmap string float }.
End MarketDataItem.

Module CoinsIDHistory.
(** [MarketData] is a pointer: [None] is [nil]. *)
Record t := { MarketData : option MarketDataItem.t }.
End CoinsIDHistory.

Module ImageItem.
Record t := { Large : string }.
End ImageItem.

Module CoinsID.
Record t := { Name : string; Image : ImageItem.t }.
End CoinsID.

(** [gecko.Client]: what each request answers. *)
Module gecko.
Record Client := {
  CoinsList : result (list CoinsListItem.t);
  CoinsMarket : string → list string → string → Z → Z → bool → list string →
                result (list CoinsMarketItem.t);
  CoinsID : string → bool → bool → bool → bool → bool → bool → result CoinsID.t;
  CoinsIDHistory : string → string → bool → result CoinsIDHistory.t
}.
End gecko.

(** ** Libraries and readings of the outside world *)

Module accounting.
Record Locale := { ComSymbol : string; ThouSep : string; DecSep : string }.
Record Accounting :=
  { Symbol : string; Precision : Z; Thousand : string; Decimal : string }.
(** The zero value, which a Go map returns for a missing key. *)
Definition zeroLocale : Locale := {| ComSymbol := ""; ThouSep := ""; DecSep := "" |}.
End accounting.

Record World := {
  (* strconv.ParseFloat(s, 64) *)
  ParseFloat : string → float * option error;
  (* json.Unmarshal(text, &v) for v of type cgErr *)
  json_Unmarshal : string → result cgErr;
  (* the verb %.2f of fmt *)
  Sprintf_2f : float → string;
  (* github.com/leekchan/accounting *)
  LocaleInfo : gmap string accounting.Locale;
  FormatMoneyInt : accounting.Accounting → Z → string;
  FormatMoneyFloat64 : accounting.Accounting → float → string;
  (* time and goment *)
  Time : Type;
  Goment : Type;
  Now_Month : Z;
  time_Parse : string → string → result Time;
  goment_New : Time → result Goment;
  goment_Format : Goment → string → string;
  (* text/template: Execute reads the data through its fields and methods *)
  Template : Type;
  template_Parse : string → result Template;
  template_Execute : Template → (string → option string) → result string;
  (* binary.Read(rand.Reader, binary.BigEndian, &v) for a uint64 v *)
  binary_Read_rand : result Z
}.

(** ** Effects: the log, the messages sent, panics *)

Definition Chat := Z.

Inductive event : Type :=
| Logged (line : string)                 (* log.Println *)
| SentText (to : Chat) (text : string)   (* b.Send(chat, text) *)
| SentSticker (to : Chat).               (* b.Send(chat, defaultSticker) *)

Inductive outcome (A : Type) : Type :=
| Returned (a : A)
| Panicked (v : error).
Arguments Returned {A} a.
Arguments Panicked {A} v.

Definition M (A : Type) : Type := outcome A * list event.

Global Instance M_ret : MRet M := λ A a, (Returned a, []).

Global Instance M_bind : MBind M := λ A B k m,
  match m with
  | (Returned a, evs) => let '(r, evs') := k a in (r, evs ++ evs')
  | (Panicked v, evs) => (Panicked v, evs)
  end.

Definition emit (e : event) : M unit := (Returned (), [e]).
Definition panic {A} (v : error) : M A := (Panicked v, []).
Definition Println (line : string) : M unit := emit (Logged line).
Definition Send (to : Chat) (text : string) : M unit := emit (SentText to text).

(** Unfolds the operations of [M] in the goal. *)
Ltac run_M :=
  unfold mbind, M_bind, mret, M_ret, Println, Send, emit, panic; simpl.

(** ** Constants, main.go:27-55 *)

Definition coinInfoFmt : string :=
  "{{.Name}} ({{.Symbol}})

Price: {{.Price}} ({{.PriceChangePercent}} {{.PriceEmoji}})
Market cap: {{.MarketCap}}({{.MarketCapPercent}} {{.MarketCapEmoji}})
ATH: {{.ATH}} ({{.ATHDate}}) 🌝
Last 24H high: {{.High24}}
Last 24H low: {{.Low24}}
".

(** [fmt.Sprintf(ifIHadFmt, a, b, c, d, e)] for
    ["%s worth of %s in %d (priced at %s) are now worth %s 😱"]. *)
Definition ifIHadFmt (a b : string) (c : Z) (d e : string) : string :=
  a +:+ " worth of " +:+ b +:+ " in " +:+ strs.itoa c +:+ " (priced at " +:+ d
    +:+ ") are now worth " +:+ e +:+ " 😱".

Definition defaultCurrency : string := "USD".

(** [fmt.Errorf("%s not supported", s)] *)
Definition notSupported (s : string) : error := errorString (s +:+ " not supported").

(** ** The identifier cache, main.go:79-102 *)

Record coinQuerier := {
  gc : gecko.Client;
  idMap : gmap string string
}.

(** The loop of main.go:94-97. *)
Definition buildIDMap (l : list CoinsListItem.t) : gmap string string :=
  foldl (λ nim e, <[CoinsListItem.Symbol e := CoinsListItem.ID e]> nim) ∅ l.

(** The returned [error] is [None] for [nil]; the second component is the
    receiver after the call. *)
Definition loadCoinIDs (cq : coinQuerier) : option error * coinQuerier :=
  match gecko.CoinsList (gc cq) with
  | inl err => (Some err, cq)
  | inr l => (None, {| gc := gc cq; idMap := buildIDMap l |})
  end.

(** The read [cq.idMap[strings.ToLower(token)]] that opens [lookupPrice],
    [coinInfo] and [ifIBought]. *)
Definition lookup (cq : coinQuerier) (token : string) : option string :=
  idMap cq !! strs.ToLower token.

(** [templateData], main.go:200-210 *)
Module templateData.
Record t := {
  CoinsMarketItem : CoinsMarketItem.t;
  Price : string;
  PriceChangePercent : string;
  MarketCap : string;
  MarketCapPercent : string;
  High24 : string;
  Low24 : string;
  ATH : string;
  ATHDate : string
}.

(** [templateData{CoinsMarketItem: p}] *)
Definition of_item (p : CoinsMarketItem.t) : t :=
  {| CoinsMarketItem := p; Price := ""; PriceChangePercent := ""; MarketCap := "";
     MarketCapPercent := ""; High24 := ""; Low24 := ""; ATH := ""; ATHDate := "" |}.
End templateData.

(** ** The price query, main.go:116-144 *)

Section WithWorld.

Variable W : World.

Definition lookupPrice (cq : coinQuerier) (token currency : string)
  : result CoinsMarketItem.t :=
  match lookup cq token with
  | None => inl (notSupported token)
  | Some id =>
      match gecko.CoinsMarket (gc cq) currency [id] "market_cap_desc" 250 1 false ["24h"%string] with
      | inl err =>
          match json_Unmarshal W (Error err) with
          | inl err => inl err
          | inr v =>
              if decide (v = errInvalidCurrency)
              then inl (notSupported (strs.ToUpper currency))
              else inl (cgErrValue v)
          end
      | inr r =>
          match r with
          | [] => inl (errorString "no results found")
          | r0 :: _ => inr r0
          end
      end
  end.

(** main.go:146-153 *)
Definition coinInfo (cq : coinQuerier) (token : string) : result CoinsID.t :=
  match lookup cq token with
  | None => inl (notSupported token)
  | Some id => gecko.CoinsID (gc cq) id false false false false false false
  end.

(** ** The what-if computation, main.go:155-198 *)

(** The month that main.go:163-165 leaves in [month]. *)
Definition resolveMonth (month : Z) : Z :=
  if (month <=? 0) || (12 <? month) then Now_Month W else month.

(** [fmt.Sprintf("15-%d-%d", month, year)] *)
Definition dateStr (month year : Z) : string :=
  "15-" +:+ strs.itoa month +:+ "-" +:+ strs.itoa year.

(** The result is [(oldAmount, newValue, oldPrice)]. *)
Definition ifIBought (cq : coinQuerier) (token currency : string)
    (year month : Z) (amount : float) : M (result (float * float * float)) :=
  let currency := strs.ToLower currency in
  match lookup cq token with
  | None => mret (inl (notSupported token))
  | Some id =>
      let month := resolveMonth month in
      let dateStr := dateStr month year in
      let r := gecko.CoinsIDHistory (gc cq) id dateStr false in
      Println dateStr ;;
      match r with
      | inl err =>
          let ret :=
            if errors_Is err DeadlineExceeded
            then errorString "CoinGecko API connection failed 🤕"
            else notSupported token in
          Println ("cannot query history data: " +:+ Error err) ;;
          mret (inl ret)
      | inr data =>
          match CoinsIDHistory.MarketData data with
          | None =>
              mret (inl (errorString ("No data available for year " +:+ strs.itoa year)))
          | Some md =>
              match MarketDataItem.CurrentPrice md !! currency with
              | None => mret (inl (notSupported currency))
              | Some oldPrice =>
                  match lookupPrice cq token currency with
                  | inl err => mret (inl err)
                  | inr newData =>
                      let oldAmount := (amount / oldPrice)%float in
                      let newValue :=
                        (oldAmount * CoinsMarketItem.CurrentPrice newData)%float in
                      mret (inr (oldAmount, newValue, oldPrice))
                  end
              end
          end
      end
  end.

(** ** Formatting a snapshot, main.go:200-276 *)


Definition RFC3339 : string := "2006-01-02T15:04:05Z07:00".

(** The [accounting.Accounting] value built at main.go:213-214 and 402-403. *)
Definition accountingFor (currency : string) : accounting.Accounting :=
  let lc := default accounting.zeroLocale (LocaleInfo W !! strs.ToUpper currency) in
  {| accounting.Symbol := accounting.ComSymbol lc;
     accounting.Precision := 2;
     accounting.Thousand := accounting.ThouSep lc;
     accounting.Decimal := accounting.DecSep lc |}.

(** The receiver is a pointer: the result is the value it points to after the
    call. *)
Definition format (t : templateData.t) (currency : string) : M templateData.t :=
  let a := accountingFor currency in
  let p := templateData.CoinsMarketItem t in
  let p' :=
    {| CoinsMarketItem.ID := CoinsMarketItem.ID p;
       CoinsMarketItem.Symbol := "$" +:+ strs.ToUpper (CoinsMarketItem.Symbol p);
       CoinsMarketItem.Name := CoinsMarketItem.Name p;
       CoinsMarketItem.CurrentPrice := CoinsMarketItem.CurrentPrice p;
       CoinsMarketItem.MarketCap := CoinsMarketItem.MarketCap p;
       CoinsMarketItem.High24 := CoinsMarketItem.High24 p;
       CoinsMarketItem.Low24 := CoinsMarketItem.Low24 p;
       CoinsMarketItem.PriceChange24h := CoinsMarketItem.PriceChange24h p;
       CoinsMarketItem.PriceChangePercentage24h := CoinsMarketItem.PriceChangePercentage24h p;
       CoinsMarketItem.MarketCapChangePercentage24h :=
         CoinsMarketItem.MarketCapChangePercentage24h p;
       CoinsMarketItem.ATH := CoinsMarketItem.ATH p;
       CoinsMarketItem.ATHDate := CoinsMarketItem.ATHDate p |} in
  match time_Parse W RFC3339 (CoinsMarketItem.ATHDate p) with
  | inl err => panic err
  | inr pt =>
      match goment_New W pt with
      | inl err => panic err
      | inr mt =>
          mret {| templateData.CoinsMarketItem := p';
                  templateData.Price := FormatMoneyFloat64 W a (CoinsMarketItem.CurrentPrice p);
                  templateData.PriceChangePercent :=
                    Sprintf_2f W (CoinsMarketItem.PriceChangePercentage24h p) +:+ "%";
                  templateData.MarketCap := FormatMoneyFloat64 W a (CoinsMarketItem.MarketCap p);
                  templateData.MarketCapPercent :=
                    Sprintf_2f W (CoinsMarketItem.MarketCapChangePercentage24h p) +:+ "%";
                  templateData.High24 := FormatMoneyFloat64 W a (CoinsMarketItem.High24 p);
                  templateData.Low24 := FormatMoneyFloat64 W a (CoinsMarketItem.Low24 p);
                  templateData.ATH := FormatMoneyFloat64 W a (CoinsMarketItem.ATH p);
                  templateData.ATHDate := goment_Format W mt "D MMMM YYYY" |}
      end
  end.

Definition PriceEmoji (t : templateData.t) : string :=
  if (0 <? CoinsMarketItem.PriceChange24h (templateData.CoinsMarketItem t))%float
  then "🤑" else "🤮".

Definition MarketCapEmoji (t : templateData.t) : string :=
  if (0 <? CoinsMarketItem.PriceChange24h (templateData.CoinsMarketItem t))%float
  then "🤑" else "🤮".

(** What [text/template] finds under a name in a [templateData]: its own
    fields first, then the promoted fields of the embedded item, then the
    methods. *)
Definition templateField (t : templateData.t) (name : string) : option string :=
  let p := templateData.CoinsMarketItem t in
  if decide (name = "Name") then Some (CoinsMarketItem.Name p)
  else if decide (name = "Symbol") then Some (CoinsMarketItem.Symbol p)
  else if decide (name = "Price") then Some (templateData.Price t)
  else if decide (name = "PriceChangePercent") then Some (templateData.PriceChangePercent t)
  else if decide (name = "PriceEmoji") then Some (PriceEmoji t)
  else if decide (name = "MarketCap") then Some (templateData.MarketCap t)
  else if decide (name = "MarketCapPercent") then Some (templateData.MarketCapPercent t)
  else if decide (name = "MarketCapEmoji") then Some (MarketCapEmoji t)
  else if decide (name = "ATH") then Some (templateData.ATH t)
  else if decide (name = "ATHDate") then Some (templateData.ATHDate t)
  else if decide (name = "High24") then Some (templateData.High24 t)
  else if decide (name = "Low24") then Some (templateData.Low24 t)
  else None.

Definition cannotQuery : string := "Cannot query CoinGecko API".

Definition queryMessage (cq : coinQuerier) (ticker fiatCurrency : string) : M string :=
  match lookupPrice cq ticker fiatCurrency with
  | inl err => mret (Error err)
  | inr p =>
      t ← format (templateData.of_item p) fiatCurrency;
      match template_Parse W coinInfoFmt with
      | inl err =>
          Println ("cannot generate message template: " +:+ Error err) ;;
          mret cannotQuery
      | inr tpl =>
          match template_Execute W tpl (templateField t) with
          | inl err =>
              Println ("cannot execute message template: " +:+ Error err) ;;
              mret cannotQuery
          | inr out => mret out
          end
      end
  end.

(** ** The sticker trigger, main.go:57-69 *)

Definition doIt : bool :=
  match binary_Read_rand W with
  | inl err => false
  | inr v => if (v mod 5 =? 0) && (v mod 3 =? 0) then true else false
  end.

(** ** The handlers of [main], main.go:306-324 and 362-414 *)

Record Message := { MsgChat : Chat; Text : string }.

(** main.go:419-435 *)
Definition queryData (s : string) : result (string * string) :=
  match strs.Fields s with
  | [f0] => inr (f0, defaultCurrency)
  | [f0; f1] => inr (f0, f1)
  | _ => inl (errorString "no fields available")
  end.

Definition boundsError (msg : string) : error :=
  errorString ("runtime error: " +:+ msg).

Definition onText (cq : coinQuerier) (m : Message) : M unit :=
  if negb (strs.HasPrefix (Text m) "%") then mret ()
  else
    match strs.ToUpper (Text m) with
    | EmptyString => panic (boundsError "slice bounds out of range [1:0]")
    | String _ ticker =>
        match queryData ticker with
        | inl err => Println ("cannot split query data: " +:+ Error err)
        | inr (ticker, currency) =>
            s ← queryMessage cq ticker currency;
            Send (MsgChat m) s ;;
            if doIt then emit (SentSticker (MsgChat m)) else mret ()
        end
    end.

(** main.go:386-394: the value left in [month], where [f] is the list of
    arguments after the command. *)
Definition whatifMonth (to : Chat) (f : list string) : M Z :=
  if decide (length f = 4%nat) then
    let '(mm, err) := strconv.Atoi (f !!! 2%nat) in
    match err with
    | Some _ => Send to "Malformed month"
    | None => mret ()
    end ;;
    mret mm
  else mret 0.

Definition whatif (cq : coinQuerier) (m : Message) : M unit :=
  match strs.Fields (Text m) with
  | [] => panic (boundsError "slice bounds out of range [1:0]")
  | _ :: f =>
      if decide (length f < 3)%nat then
        Send (MsgChat m) "Syntax: /whatif amount token year [month number]"
      else
        let '(amount, err) := ParseFloat W (f !!! 0%nat) in
        match err with
        | Some _ => Send (MsgChat m) "Malformed amount"
        | None =>
            let token := f !!! 1%nat in
            let '(year, err) := strconv.Atoi (f !!! 2%nat) in
            match err with
            | Some _ => Send (MsgChat m) "Malformed year"
            | None =>
                month ← whatifMonth (MsgChat m) f;
                r ← ifIBought cq token defaultCurrency year month amount;
                match r with
                | inl err => Send (MsgChat m) (Error err)
                | inr (_, new, oldPrice) =>
                    let a := accountingFor defaultCurrency in
                    let ss := ifIHadFmt (FormatMoneyInt W a 500) (strs.ToUpper token) year
                                (FormatMoneyFloat64 W a oldPrice)
                                (FormatMoneyFloat64 W a new) in
                    Send (MsgChat m) ss
                end
            end
        end
  end.

End WithWorld.

(** ** Worlds that differ in one library, and the trigger over all readings *)

(** The world [W] in which the random source answers [r]. *)
Definition withRead (W : World) (r : result Z) : World :=
  {| ParseFloat := ParseFloat W;
     json_Unmarshal := json_Unmarshal W;
     Sprintf_2f := Sprintf_2f W;
     LocaleInfo := LocaleInfo W;
     FormatMoneyInt := FormatMoneyInt W;
     FormatMoneyFloat64 := FormatMoneyFloat64 W;
     Time := Time W;
     Goment := Goment W;
     Now_Month := Now_Month W;
     time_Parse := time_Parse W;
     goment_New := goment_New W;
     goment_Format := goment_Format W;
     Template := Template W;
     template_Parse := template_Parse W;
     template_Execute := template_Execute W;
     binary_Read_rand := r |}.

(** The world [W] with another [text/template]. *)
Definition withTemplates (W : World) (T : Type) (parse : string → result T)
    (execute : T → (string → option string) → result string) : World :=
  {| ParseFloat := ParseFloat W;
     json_Unmarshal := json_Unmarshal W;
     Sprintf_2f := Sprintf_2f W;
     LocaleInfo := LocaleInfo W;
     FormatMoneyInt := FormatMoneyInt W;
     FormatMoneyFloat64 := FormatMoneyFloat64 W;
     Time := Time W;
     Goment := Goment W;
     Now_Month := Now_Month W;
     time_Parse := time_Parse W;
     goment_New := goment_New W;
     goment_Format := goment_Format W;
     Template := T;
     template_Parse := parse;
     template_Execute := execute;
     binary_Read_rand := binary_Read_rand W |}.

(** The number of readings [v < n] on which [doIt] answers [true]. *)
Definition hits (W : World) (n : N) : N :=
  N.peano_rect (λ _, N) 0%N
    (λ v acc, if doIt (withRead W (inr (Z.of_N v))) then N.succ acc else acc) n.

(** The number of values of a [uint64]. *)
Definition uint64Values : N := 18446744073709551616.

(** The chance that [doIt] answers [true] on a reading drawn uniformly from
    the values of a [uint64]. *)
Definition successProbability (W : World) : Q :=
  Z.of_N (hits W uint64Values) # 18446744073709551616.

(** ** A world to run the program in

    Stand-ins for the libraries and for the CoinGecko service, used by the
    examples at concrete inputs.  Each one follows its library on the inputs
    that the examples feed it and is kept small otherwise. *)

Module Fixture.

(** Hundredths of a finite float, rounded half to even. *)
Definition cents (x : float) : option (bool * Z) :=
  match Prim2SF x with
  | S754_zero s => Some (s, 0)
  | S754_finite s m e =>
      let num := Z.pos m * 100 in
      if 0 <=? e then Some (s, num * 2 ^ e)
      else
        let d := 2 ^ (- e) in
        let c := num / d in
        let r := num mod d in
        Some (s, if (d <? 2 * r) || ((d =? 2 * r) && Z.odd c) then c + 1 else c)
  | _ => None
  end.

Fixpoint group_rev (sep : string) (k : nat) (s : string) : string :=
  match s with
  | EmptyString => EmptyString
  | String c s' =>
      if decide (k = 3%nat) then sep +:+ String c (group_rev sep 1 s')
      else String c (group_rev sep (S k) s')
  end.

(** Digits in groups of three, from the right. *)
Definition group3 (sep digits : string) : string :=
  String.rev (group_rev (String.rev sep) 0 (String.rev digits)).

Definition two_digits (n : Z) : string :=
  if n <? 10 then "0" +:+ strs.itoa n else strs.itoa n.

Definition fixed2 (thousand decimal : string) (neg : bool) (c : Z) : string :=
  (if neg && negb (c =? 0) then "-" else "")
    +:+ group3 thousand (strs.itoa (c / 100)) +:+ decimal +:+ two_digits (c mod 100).

Definition Sprintf_2f (x : float) : string :=
  match cents x with
  | Some (s, c) => fixed2 "" "." s c
  | None => "NaN"
  end.

Definition FormatMoneyInt (a : accounting.Accounting) (n : Z) : string :=
  (if n <? 0 then "-" else "") +:+ accounting.Symbol a
    +:+ group3 (accounting.Thousand a) (strs.itoa (Z.abs n))
    +:+ accounting.Decimal a +:+ "00".

Definition FormatMoneyFloat64 (a : accounting.Accounting) (x : float) : string :=
  match cents x with
  | Some (s, c) =>
      (if s && negb (c =? 0) then "-" else "") +:+ accounting.Symbol a
        +:+ fixed2 (accounting.Thousand a) (accounting.Decimal a) false c
  | None => "NaN"
  end.

(** Unsigned decimal integers only. *)
Definition ParseFloat (s : string) : float * option error :=
  match (if decide (s = EmptyString) then None else strconv.digits 0 s) with
  | Some n => (PrimFloat.of_uint63 (Uint63.of_Z n), None)
  | None => (0%float, Some (strconv.NumError "ParseFloat" s strconv.ErrSyntax))
  end.

Fixpoint strip_prefix (p s : string) : option string :=
  match p, s with
  | EmptyString, _ => Some s
  | String a p', String b s' => if decide (a = b) then strip_prefix p' s' else None
  | _, _ => None
  end.

(** The text [{"error":"w"}] for a message [w]. *)
Definition errorPayload (w : string) : string :=
  "{" +:+ strs.dquote +:+ "error" +:+ strs.dquote +:+ ":" +:+ strs.dquote +:+ w
    +:+ strs.dquote +:+ "}".

Fixpoint plain (s : string) : bool :=
  match s with
  | EmptyString => true
  | String c s' =>
      let n := N_of_ascii c in
      ((32 <=? n) && (n <? 127) && negb (n =? 34) && negb (n =? 92))%N && plain s'
  end.

(** Decodes the objects [errorPayload w] and the empty object; anything else
    is taken for text that is not JSON. *)
Definition json_Unmarshal (s : string) : result cgErr :=
  if decide (s = "{}") then inr {| Value := "" |}
  else
    match strip_prefix ("{" +:+ strs.dquote +:+ "error" +:+ strs.dquote +:+ ":" +:+ strs.dquote) s with
    | Some rest =>
        match strip_prefix (String.rev (strs.dquote +:+ "}")) (String.rev rest) with
        | Some w => if plain w then inr {| Value := String.rev w |}
                    else inl (errorString "invalid character in string literal")
        | None => inl (errorString "unexpected end of JSON input")
        end
    | None => inl (errorString "invalid character looking for beginning of value")
    end.

Definition monthNames : list string :=
  ["January"; "February"; "March"; "April"; "May"; "June"; "July"; "August";
   "September"; "October"; "November"; "December"]%string.

Definition all_digits (s : string) : bool :=
  bool_decide (s ≠ EmptyString ∧ is_Some (strconv.digits 0 s)).

(** Accepts [yyyy-mm-ddThh:mm:ss] followed by a zone, and keeps the text. *)
Definition time_Parse (layout value : string) : result string :=
  if all_digits (substring 0 4 value) && bool_decide (substring 4 1 value = "-")
     && all_digits (substring 5 2 value) && bool_decide (substring 7 1 value = "-")
     && all_digits (substring 8 2 value) && bool_decide (substring 10 1 value = "T")
     && (20 <=? String.length value)%nat
  then inr value
  else inl (errorString ("parsing time " +:+ strs.dquote +:+ value +:+ strs.dquote
                         +:+ " as " +:+ strs.dquote +:+ layout +:+ strs.dquote))
  .

(** The layout [D MMMM YYYY]. *)
Definition goment_Format (t : string) (layout : string) : string :=
  let day := default 0 (strconv.digits 0 (substring 8 2 t)) in
  let month := default 0 (strconv.digits 0 (substring 5 2 t)) in
  strs.itoa day +:+ " " +:+ default "" (monthNames !! Z.to_nat (month - 1))
    +:+ " " +:+ substring 0 4 t.

(** The layout of [coinInfoFmt]. *)
Definition template_Execute (_ : unit) (field : string → option string) : result string :=
  let get name := default "<no value>" (field name) in
  let nl := String "010"%char EmptyString in
  inr (get "Name" +:+ " (" +:+ get "Symbol" +:+ ")" +:+ nl +:+ nl
       +:+ "Price: " +:+ get "Price" +:+ " (" +:+ get "PriceChangePercent" +:+ " "
       +:+ get "PriceEmoji" +:+ ")" +:+ nl
       +:+ "Market cap: " +:+ get "MarketCap" +:+ "(" +:+ get "MarketCapPercent" +:+ " "
       +:+ get "MarketCapEmoji" +:+ ")" +:+ nl
       +:+ "ATH: " +:+ get "ATH" +:+ " (" +:+ get "ATHDate" +:+ ") 🌝" +:+ nl
       +:+ "Last 24H high: " +:+ get "High24" +:+ nl
       +:+ "Last 24H low: " +:+ get "Low24" +:+ nl).

Definition usd : accounting.Locale :=
  {| accounting.ComSymbol := "$"; accounting.ThouSep := ","; accounting.DecSep := "." |}.

(** The world in month [now] whose random source answers [rand]. *)
Definition world (now : Z) (rand : result Z) : World :=
  Build_World ParseFloat json_Unmarshal Sprintf_2f {[ "USD"%string := usd ]}
    FormatMoneyInt FormatMoneyFloat64
    string string now time_Parse inr goment_Format
    unit (λ _, inr ()) template_Execute
    rand.

Definition coins : list CoinsListItem.t :=
  [ {| CoinsListItem.ID := "bitcoin"; CoinsListItem.Symbol := "btc"; CoinsListItem.Name := "Bitcoin" |};
    {| CoinsListItem.ID := "ethereum"; CoinsListItem.Symbol := "eth"; CoinsListItem.Name := "Ethereum" |} ].

Definition ethereum (price : float) (athDate : string) : CoinsMarketItem.t :=
  {| CoinsMarketItem.ID := "ethereum"; CoinsMarketItem.Symbol := "eth";
     CoinsMarketItem.Name := "Ethereum"; CoinsMarketItem.CurrentPrice := price;
     CoinsMarketItem.MarketCap := 240000000000; CoinsMarketItem.High24 := 2050.5;
     CoinsMarketItem.Low24 := 1980.25; CoinsMarketItem.PriceChange24h := 12.5;
     CoinsMarketItem.PriceChangePercentage24h := 0.625;
     CoinsMarketItem.MarketCapChangePercentage24h := -0.5;
     CoinsMarketItem.ATH := 4878.25; CoinsMarketItem.ATHDate := athDate |}.

(** A client that answers every request with the given responses. *)
Definition client (coinsList : result (list CoinsListItem.t))
    (market : result (list CoinsMarketItem.t))
    (history : result CoinsIDHistory.t) : gecko.Client :=
  {| gecko.CoinsList := coinsList;
     gecko.CoinsMarket := λ _ _ _ _ _ _ _, market;
     gecko.CoinsID := λ _ _ _ _ _ _ _, inl (errorString "not used");
     gecko.CoinsIDHistory := λ _ _ _, history |}.

Definition historyAt (prices : gmap string float) : result CoinsIDHistory.t :=
  inr {| CoinsIDHistory.MarketData := Some {| MarketDataItem.CurrentPrice := prices |} |}.

(** A querier whose cache was loaded from [coins]. *)
Definition querier (coinsList : result (list CoinsListItem.t))
    (market : result (list CoinsMarketItem.t))
    (history : result CoinsIDHistory.t) : coinQuerier :=
  {| gc := client coinsList market history; idMap := buildIDMap coins |}.

(** The same with a service that has no market data. *)
Definition idle (coinsList : result (list CoinsListItem.t)) : coinQuerier :=
  querier coinsList (inr []) (inr {| CoinsIDHistory.MarketData := None |}).


Definition twiceCoins : list CoinsListItem.t :=
  coins ++
  [ {| CoinsListItem.ID := "ethereum-wormhole"; CoinsListItem.Symbol := "eth";
       CoinsListItem.Name := "Ethereum (Wormhole)" |} ].

Definition athDate : string := "2021-11-10T14:24:19.604Z".

(** July, and a reading of 30 from the random source. *)
Definition july : World := world 7 (inr 30).

(** The service rejects the market request with [e]. *)
Definition rejecting (e : error) : coinQuerier :=
  querier (inr coins) (inl e) (historyAt {[ "usd"%string := 200%float ]}).

(** Ethereum priced at [h] on the day asked for and at [p] now. *)
Definition priced (h p : float) : coinQuerier :=
  querier (inr coins) (inr [ethereum p athDate]) (historyAt {[ "usd"%string := h ]}).

(** The history request answers [history]. *)
Definition withHistory (history : result CoinsIDHistory.t) : coinQuerier :=
  querier (inr coins) (inr [ethereum 2000 athDate]) history.

End Fixture.

(** ** The refresh loop, main.go:104-114 *)

(** The client once the service answers [answer] to the next request for the
    asset list. *)
Definition answering (cq : coinQuerier) (answer : result (list CoinsListItem.t))
  : coinQuerier :=
  {| gc := {| gecko.CoinsList := answer;
              gecko.CoinsMarket := gecko.CoinsMarket (gc cq);
              gecko.CoinsID := gecko.CoinsID (gc cq);
              gecko.CoinsIDHistory := gecko.CoinsIDHistory (gc cq) |};
     idMap := idMap cq |}.

(** One pass: main.go:105-107, and again 110-112. *)
Definition refreshPass (cq : coinQuerier) : coinQuerier * list event :=
  match loadCoinIDs cq with
  | (Some err, cq') => (cq', [Logged ("background id update error: " +:+ Error err)])
  | (None, cq') => (cq', [])
  end.

(** The first pass and the ticks that follow, for as many passes as
    [answers] lists answers of the service; the loop itself has no end. *)
Fixpoint backgroundIDUpdates (answers : list (result (list CoinsListItem.t)))
    (cq : coinQuerier) : coinQuerier * list event :=
  match answers with
  | [] => (cq, [])
  | answer :: later =>
      let '(cq1, evs1) := refreshPass (answering cq answer) in
      let '(cq2, evs2) := backgroundIDUpdates later cq1 in
      (cq2, evs1 ++ evs2)
  end.

(** ** The inline-query handler, main.go:326-360 *)

Fixpoint Split_from (sep : ascii) (cur : string) (s : string) : list string :=
  match s with
  | EmptyString => [cur]
  | String c s' =>
      if decide (c = sep) then cur :: Split_from sep EmptyString s'
      else Split_from sep (cur +:+ String c EmptyString) s'
  end.

(** [strings.Split(s, sep)] for a separator of one byte. *)
Definition Split (s : string) (sep : ascii) : list string := Split_from sep EmptyString s.

Fixpoint TrimLeft (s : string) : string :=
  match s with
  | EmptyString => EmptyString
  | String c s' => if strs.isSpace c then TrimLeft s' else s
  end.

(** [strings.TrimSpace] *)
Definition TrimSpace (s : string) : string :=
  String.rev (TrimLeft (String.rev (TrimLeft s))).

(** The values of telebot that the handler reads and builds; the identifier
    of a result is the one that [SetResultID] sets. *)
Module Query.
Record t := { ID : string; Text : string }.
End Query.

Module ArticleResult.
Record t := {
  ID : string;
  Title : string;
  Text : string;
  Description : string;
  ThumbURL : string
}.
End ArticleResult.

Module QueryResponse.
Record t := { Results : list ArticleResult.t; CacheTime : Z }.
End QueryResponse.

(** What the handler of inline queries does: the events of the text handlers
    and the answers to a query. *)
Inductive queryEvent : Type :=
| Did (e : event)
| Answered (q : Query.t) (response : QueryResponse.t).   (* b.Answer(q, response) *)

(** [answerErr] is the error that [b.Answer] returns, [None] for [nil]. *)
Definition onQuery (W : World) (cq : coinQuerier) (answerErr : option error)
    (q : Query.t) : outcome unit * list queryEvent :=
  match Split (Query.Text q) " " with
  | [] => (Returned (), [])
  | raw0 :: _ =>
      let tokenID := TrimSpace raw0 in
      if decide (String.length tokenID = 0%nat) then (Returned (), [])
      else
        match coinInfo cq tokenID with
        | inl err =>
            (Returned (),
             [Did (Logged ("cannot query inline token infos: " +:+ Error err))])
        | inr data =>
            match queryMessage W cq tokenID defaultCurrency with
            | (Panicked v, evs) => (Panicked v, Did <$> evs)
            | (Returned text, evs) =>
                let result :=
                  {| ArticleResult.ID := "0";
                     ArticleResult.Title :=
                       CoinsID.Name data +:+ " (" +:+ tokenID +:+ ") informations";
                     ArticleResult.Text := text;
                     ArticleResult.Description :=
                       "Get current price, market cap infos about " +:+ CoinsID.Name data
                         +:+ "!";
                     ArticleResult.ThumbURL := ImageItem.Large (CoinsID.Image data) |} in
                (Returned (),
                 (Did <$> evs)
                 ++ [Answered q {| QueryResponse.Results := [result];
                                   QueryResponse.CacheTime := 1 |}]
                 ++ match answerErr with
                    | Some err => [Did (Logged (Error err))]
                    | None => []
                    end)
            end
        end
  end.

(** ** The earlier revision of the text handler

    In the revision without [/whatif] the handler splits the whole text and
    [queryMessage] strips the first byte of the upper-cased ticker; from
    there on [queryMessage] is the code of main.go:254-275. *)

Module Rev0.

Definition queryMessage (W : World) (cq : coinQuerier) (ticker fiatCurrency : string)
  : M string :=
  match strs.ToUpper ticker with
  | EmptyString => panic (boundsError "slice bounds out of range [1:0]")
  | String _ ticker => queryMessage W cq ticker fiatCurrency
  end.

Definition onText (W : World) (cq : coinQuerier) (m : Message) : M unit :=
  if negb (strs.HasPrefix (Text m) "%") then mret ()
  else
    match queryData (Text m) with
    | inl err => Println ("cannot split query data: " +:+ Error err)
    | inr (ticker, currency) =>
        s ← queryMessage W cq ticker currency;
        Send (MsgChat m) s ;;
        if doIt W then emit (SentSticker (MsgChat m)) else mret ()
    end.

End Rev0.

(** ** Words *)

(** No byte of [s] is white space. *)
Fixpoint spaceless (s : string) : bool :=
  match s with
  | EmptyString => true
  | String c s' => negb (strs.isSpace c) && spaceless s'
  end.

(** ** More of the world to run in *)

Module Scenario.

Definition ethereumInfo : CoinsID.t :=
  {| CoinsID.Name := "Ethereum";
     CoinsID.Image := {| ImageItem.Large := "https://example.org/ethereum.png" |} |}.

(** A querier loaded from [Fixture.coins] whose service describes every coin
    as [ethereumInfo] and prices it at 2000. *)
Definition described : coinQuerier :=
  {| gc := {| gecko.CoinsList := inr Fixture.coins;
              gecko.CoinsMarket := λ _ _ _ _ _ _ _,
                inr [Fixture.ethereum 2000 Fixture.athDate];
              gecko.CoinsID := λ _ _ _ _ _ _ _, inr ethereumInfo;
              gecko.CoinsIDHistory := λ _ _ _, Fixture.historyAt ∅ |};
     idMap := buildIDMap Fixture.coins |}.

Definition dogeOnly : list CoinsListItem.t :=
  [ {| CoinsListItem.ID := "dogecoin"; CoinsListItem.Symbol := "doge";
       CoinsListItem.Name := "Dogecoin" |} ].

End Scenario.

(** * Properties *)

(** ** Strings *)

Example Fields_whatif :
  strs.Fields "  /whatif 100	ETH  2018 " = ["/whatif"; "100"; "ETH"; "2018"]%string.
Proof. reflexivity. Qed.

Example ToLower_ETH : strs.ToLower "ETH" = "eth"%string ∧ strs.ToUpper "eth1" = "ETH1"%string.
Proof. split; reflexivity. Qed.

Example Atoi_examples :
  strconv.Atoi "2018" = (2018, None) ∧ strconv.Atoi "-7" = (-7, None)
  ∧ fst (strconv.Atoi "foo") = 0 ∧ fst (strconv.Atoi "99999999999999999999") = strconv.maxInt
  ∧ strs.itoa 2018 = "2018"%string ∧ strs.itoa (-3) = "-3"%string ∧ strs.itoa 0 = "0"%string.
Proof. repeat split; vm_compute; reflexivity. Qed.



(** ** The identifier cache *)

Section Cache.

Implicit Types (cq : coinQuerier) (l : list CoinsListItem.t) (s token : string).

(** The loop keeps, for each symbol, the entry written last. *)
Lemma foldl_put_lookup l (nim : gmap string string) s :
  foldl (λ nim e, <[CoinsListItem.Symbol e := CoinsListItem.ID e]> nim) nim l !! s =
    match last (filter (λ e, CoinsListItem.Symbol e = s) l) with
    | Some e => Some (CoinsListItem.ID e)
    | None => nim !! s
    end.
Proof.
  induction l as [|e l IH] using rev_ind; [done|].
  rewrite foldl_snoc, filter_app, filter_cons, filter_nil.
  case_decide as Hs.
  - subst s. by rewrite lookup_insert_eq, last_snoc.
  - by rewrite lookup_insert_ne, app_nil_r.
Qed.

Lemma buildIDMap_lookup l s :
  buildIDMap l !! s =
    CoinsListItem.ID <$> last (filter (λ e, CoinsListItem.Symbol e = s) l).
Proof.
  unfold buildIDMap. rewrite (foldl_put_lookup l ∅ s).
  by destruct (last _).
Qed.

(** A symbol followed by no entry of the same symbol keeps its identifier. *)
Lemma buildIDMap_last_wins l1 l2 e :
  Forall (λ e', CoinsListItem.Symbol e' ≠ CoinsListItem.Symbol e) l2 →
  buildIDMap (l1 ++ e :: l2) !! CoinsListItem.Symbol e = Some (CoinsListItem.ID e).
Proof.
  intros Hl2. rewrite buildIDMap_lookup, filter_app, filter_cons.
  rewrite decide_True by done.
  replace (filter _ l2) with (@nil CoinsListItem.t).
  - by rewrite last_app_cons.
  - symmetry. induction Hl2 as [|e' l2 He' _ IH]; [done|].
    by rewrite filter_cons, decide_False.
Qed.

Lemma buildIDMap_absent l s :
  buildIDMap l !! s = None ↔ Forall (λ e, CoinsListItem.Symbol e ≠ s) l.
Proof.
  rewrite buildIDMap_lookup, fmap_None, last_None. split.
  - intros Hnil. apply Forall_forall. intros e He Hs.
    by eapply (filter_nil_not_elem_of (λ e, CoinsListItem.Symbol e = s)).
  - induction 1 as [|e l' He _ IH]; [done|].
    by rewrite filter_cons, decide_False.
Qed.

Lemma loadCoinIDs_error cq err :
  gecko.CoinsList (gc cq) = inl err → loadCoinIDs cq = (Some err, cq).
Proof. unfold loadCoinIDs. by intros ->. Qed.

Lemma loadCoinIDs_ok cq l :
  gecko.CoinsList (gc cq) = inr l →
  loadCoinIDs cq = (None, {| gc := gc cq; idMap := buildIDMap l |}).
Proof. unfold loadCoinIDs. by intros ->. Qed.

End Cache.

(** C4.  When the fetch of the asset list fails, [loadCoinIDs] returns that
    error and leaves the querier, hence the mapping, as it was: every lookup
    and every price query answers after the call what it answered before. *)
Theorem loadCoinIDs_failure_keeps_mapping (cq : coinQuerier) (err : error) :
  gecko.CoinsList (gc cq) = inl err →
  (loadCoinIDs cq).1 = Some err
  ∧ idMap (loadCoinIDs cq).2 = idMap cq
  ∧ (∀ token, lookup (loadCoinIDs cq).2 token = lookup cq token)
  ∧ (∀ W token currency,
       lookupPrice W (loadCoinIDs cq).2 token currency = lookupPrice W cq token currency).
Proof.
  intros Herr. by rewrite (loadCoinIDs_error cq err Herr).
Qed.


Lemma loadCoinIDs_failure_keeps_mapping_witness :
  gecko.CoinsList (gc (Fixture.idle (inl DeadlineExceeded))) = inl DeadlineExceeded
  ∧ (loadCoinIDs (Fixture.idle (inl DeadlineExceeded))).1 = Some DeadlineExceeded
  ∧ lookup (loadCoinIDs (Fixture.idle (inl DeadlineExceeded))).2 "ETH"
    = Some "ethereum"%string.
Proof.
  destruct (loadCoinIDs_failure_keeps_mapping
              (Fixture.idle (inl DeadlineExceeded)) DeadlineExceeded eq_refl)
    as (Herr & _ & Hlookup & _).
  split; [reflexivity|]. split; [exact Herr|].
  rewrite Hlookup. reflexivity.
Defined.



(** ** The price query *)

Section PriceQuery.

Variable W : World.
Implicit Types (cq : coinQuerier) (token currency id : string).

Lemma lookupPrice_unknown cq token currency :
  lookup cq token = None → lookupPrice W cq token currency = inl (notSupported token).
Proof. unfold lookupPrice. by intros ->. Qed.

Lemma lookupPrice_first cq token currency id r0 r :
  lookup cq token = Some id →
  gecko.CoinsMarket (gc cq) currency [id] "market_cap_desc" 250 1 false ["24h"%string]
    = inr (r0 :: r) →
  lookupPrice W cq token currency = inr r0.
Proof. unfold lookupPrice. by intros -> ->. Qed.

(** When the text of the service's error does not decode, the error of the
    decoder is what [lookupPrice] returns. *)
Lemma lookupPrice_undecodable cq token currency id err jerr :
  lookup cq token = Some id →
  gecko.CoinsMarket (gc cq) currency [id] "market_cap_desc" 250 1 false ["24h"%string]
    = inl err →
  json_Unmarshal W (Error err) = inl jerr →
  lookupPrice W cq token currency = inl jerr.
Proof. unfold lookupPrice. by intros -> -> ->. Qed.

(** C6, as amended.  For a ticker that resolves in the cache: when the market
    request fails and the text of its error decodes to the payload
    ["invalid vs_currency"], [lookupPrice] fails with the upper-cased
    currency followed by [" not supported"]; when the text decodes to any
    other payload, it fails with that payload as the error, whose text is the
    payload's [error] field; when the request succeeds with no result, it
    fails with ["no results found"]. *)
Theorem lookupPrice_failures cq token currency id :
  lookup cq token = Some id →
  (∀ err,
     gecko.CoinsMarket (gc cq) currency [id] "market_cap_desc" 250 1 false ["24h"%string]
       = inl err →
     json_Unmarshal W (Error err) = inr errInvalidCurrency →
     lookupPrice W cq token currency = inl (notSupported (strs.ToUpper currency)))
  ∧ (∀ err v,
     gecko.CoinsMarket (gc cq) currency [id] "market_cap_desc" 250 1 false ["24h"%string]
       = inl err →
     json_Unmarshal W (Error err) = inr v → v ≠ errInvalidCurrency →
     lookupPrice W cq token currency = inl (cgErrValue v)
     ∧ Error (cgErrValue v) = Value v)
  ∧ (gecko.CoinsMarket (gc cq) currency [id] "market_cap_desc" 250 1 false ["24h"%string]
       = inr [] →
     lookupPrice W cq token currency = inl (errorString "no results found")).
Proof.
  intros Hid. unfold lookupPrice. rewrite Hid. split; [|split].
  - intros err -> ->. by rewrite decide_True.
  - intros err v -> -> Hv. by rewrite decide_False.
  - by intros ->.
Qed.

End PriceQuery.

Lemma lookupPrice_failures_witness :
  lookup (Fixture.rejecting (errorString (Fixture.errorPayload "invalid vs_currency"))) "ETH"
    = Some "ethereum"%string
  ∧ lookupPrice Fixture.july
      (Fixture.rejecting (errorString (Fixture.errorPayload "invalid vs_currency")))
      "ETH" "xyz"
    = inl (errorString "XYZ not supported")
  ∧ lookupPrice Fixture.july
      (Fixture.rejecting (errorString (Fixture.errorPayload "coin not found")))
      "ETH" "usd"
    = inl (cgErrValue {| Value := "coin not found" |})
  ∧ lookupPrice Fixture.july
      (Fixture.querier (inr Fixture.coins) (inr []) (Fixture.historyAt ∅)) "ETH" "usd"
    = inl (errorString "no results found").
Proof.
  split; [reflexivity|]. split; [|split].
  - destruct (lookupPrice_failures Fixture.july
                (Fixture.rejecting (errorString (Fixture.errorPayload "invalid vs_currency")))
                "ETH" "xyz" "ethereum" eq_refl) as (Hinvalid & _ & _).
    exact (Hinvalid _ eq_refl eq_refl).
  - destruct (lookupPrice_failures Fixture.july
                (Fixture.rejecting (errorString (Fixture.errorPayload "coin not found")))
                "ETH" "usd" "ethereum" eq_refl) as (_ & Hother & _).
    refine (proj1 (Hother _ {| Value := "coin not found" |} eq_refl eq_refl _)).
    intros Heq. discriminate Heq.
  - destruct (lookupPrice_failures Fixture.july
                (Fixture.querier (inr Fixture.coins) (inr []) (Fixture.historyAt ∅))
                "ETH" "usd" "ethereum" eq_refl) as (_ & _ & Hempty).
    exact (Hempty eq_refl).
Defined.

(** C6, as stated, fails where the service's error is any other JSON
    payload: what [lookupPrice] returns is the decoded payload, an error
    other than the one the request failed with and with another text; for a
    payload without an [error] field that text is empty. *)
Lemma lookupPrice_other_error_replaced :
  json_Unmarshal Fixture.july (Fixture.errorPayload "coin not found") ≠ inr errInvalidCurrency
  ∧ lookupPrice Fixture.july
      (Fixture.rejecting (errorString (Fixture.errorPayload "coin not found"))) "ETH" "usd"
    = inl (cgErrValue {| Value := "coin not found" |})
  ∧ lookupPrice Fixture.july
      (Fixture.rejecting (errorString (Fixture.errorPayload "coin not found"))) "ETH" "usd"
    ≠ inl (errorString (Fixture.errorPayload "coin not found"))
  ∧ Error (cgErrValue {| Value := "coin not found" |})
    ≠ Error (errorString (Fixture.errorPayload "coin not found"))
  ∧ lookupPrice Fixture.july (Fixture.rejecting (errorString "{}")) "ETH" "usd"
    = inl (cgErrValue {| Value := "" |}).
Proof.
  split; [intros H; vm_compute in H; discriminate H|].
  split; [vm_compute; reflexivity|].
  split; [intros H; vm_compute in H; discriminate H|].
  split; [intros H; vm_compute in H; discriminate H|].
  vm_compute; reflexivity.
Qed.

(** ** The what-if computation *)

Section WhatIf.

Variable W : World.
Implicit Types (cq : coinQuerier) (token currency id : string) (year month : Z)
  (amount : float).

(** A month from 1 to 12 is kept, any other is replaced by the month of the
    clock. *)
Lemma resolveMonth_in_range month :
  1 ≤ month ≤ 12 → resolveMonth W month = month.
Proof.
  intros [Hlo Hhi]. unfold resolveMonth.
  destruct (Z.leb_spec month 0); [lia|]. destruct (Z.ltb_spec 12 month); [lia|]. done.
Qed.

Lemma resolveMonth_out_of_range month :
  month ≤ 0 ∨ 12 < month → resolveMonth W month = Now_Month W.
Proof.
  intros Hout. unfold resolveMonth.
  destruct (Z.leb_spec month 0); [done|]. destruct (Z.ltb_spec 12 month); [done|]. lia.
Qed.

Lemma ifIBought_unknown cq token currency year month amount :
  lookup cq token = None →
  ifIBought W cq token currency year month amount
  = (Returned (inl (notSupported token)), []).
Proof. unfold ifIBought. by intros ->. Qed.

(** C7.  For a ticker that resolves in the cache, and the history request
    for day 15 of the resolved month: an error that is a deadline-exceeded
    error gives the error ["CoinGecko API connection failed 🤕"]; any other
    error gives [token ++ " not supported"]; a record without market data
    gives ["No data available for year "] followed by the year; market data
    whose prices lack the lower-cased currency give the lower-cased currency
    followed by [" not supported"].  The date asked for is logged, and so is
    the error of the request. *)
Theorem ifIBought_failures cq token currency year month amount id :
  lookup cq token = Some id →
  (∀ err,
     gecko.CoinsIDHistory (gc cq) id (dateStr (resolveMonth W month) year) false = inl err →
     errors_Is err DeadlineExceeded = true →
     ifIBought W cq token currency year month amount
     = (Returned (inl (errorString "CoinGecko API connection failed 🤕")),
        [Logged (dateStr (resolveMonth W month) year);
         Logged ("cannot query history data: " +:+ Error err)]))
  ∧ (∀ err,
     gecko.CoinsIDHistory (gc cq) id (dateStr (resolveMonth W month) year) false = inl err →
     errors_Is err DeadlineExceeded = false →
     ifIBought W cq token currency year month amount
     = (Returned (inl (errorString (token +:+ " not supported"))),
        [Logged (dateStr (resolveMonth W month) year);
         Logged ("cannot query history data: " +:+ Error err)]))
  ∧ (∀ data,
     gecko.CoinsIDHistory (gc cq) id (dateStr (resolveMonth W month) year) false = inr data →
     CoinsIDHistory.MarketData data = None →
     ifIBought W cq token currency year month amount
     = (Returned (inl (errorString ("No data available for year " +:+ strs.itoa year))),
        [Logged (dateStr (resolveMonth W month) year)]))
  ∧ (∀ data md,
     gecko.CoinsIDHistory (gc cq) id (dateStr (resolveMonth W month) year) false = inr data →
     CoinsIDHistory.MarketData data = Some md →
     MarketDataItem.CurrentPrice md !! strs.ToLower currency = None →
     ifIBought W cq token currency year month amount
     = (Returned (inl (errorString (strs.ToLower currency +:+ " not supported"))),
        [Logged (dateStr (resolveMonth W month) year)])).
Proof.
  intros Hid. unfold ifIBought. rewrite Hid. split; [|split; [|split]].
  - intros err -> Hdl. rewrite Hdl. reflexivity.
  - intros err -> Hdl. rewrite Hdl. reflexivity.
  - intros data -> ->. reflexivity.
  - intros data md -> -> ->. reflexivity.
Qed.

(** What a successful [ifIBought] went through. *)
Lemma ifIBought_success_inv cq token currency year month amount u v h :
  (ifIBought W cq token currency year month amount).1 = Returned (inr (u, v, h)) →
  ∃ id data md p,
    lookup cq token = Some id
    ∧ gecko.CoinsIDHistory (gc cq) id (dateStr (resolveMonth W month) year) false = inr data
    ∧ CoinsIDHistory.MarketData data = Some md
    ∧ MarketDataItem.CurrentPrice md !! strs.ToLower currency = Some h
    ∧ lookupPrice W cq token (strs.ToLower currency) = inr p
    ∧ u = (amount / h)%float
    ∧ v = (u * CoinsMarketItem.CurrentPrice p)%float.
Proof.
  unfold ifIBought.
  destruct (lookup cq token) as [id|] eqn:Hid; [|discriminate].
  destruct (gecko.CoinsIDHistory _ _ _ _) as [err|data] eqn:Hcall; [discriminate|].
  destruct (CoinsIDHistory.MarketData data) as [md|] eqn:Hmd; [|discriminate].
  destruct (MarketDataItem.CurrentPrice md !! _) as [h'|] eqn:Hh; [|discriminate].
  destruct (lookupPrice _ _ _ _) as [err|p] eqn:Hp; [discriminate|].
  run_M. intros [= <- <- <-].
  exists id, data, md, p. by rewrite Hcall.
Qed.

Lemma ifIBought_success cq token currency year month amount id data md h p :
  lookup cq token = Some id →
  gecko.CoinsIDHistory (gc cq) id (dateStr (resolveMonth W month) year) false = inr data →
  CoinsIDHistory.MarketData data = Some md →
  MarketDataItem.CurrentPrice md !! strs.ToLower currency = Some h →
  lookupPrice W cq token (strs.ToLower currency) = inr p →
  ifIBought W cq token currency year month amount
  = (Returned (inr ((amount / h)%float,
                    (amount / h * CoinsMarketItem.CurrentPrice p)%float, h)),
     [Logged (dateStr (resolveMonth W month) year)]).
Proof.
  unfold ifIBought. by intros -> -> -> -> ->.
Qed.

(** C3.  [ifIBought] succeeds exactly when the ticker resolves, the history
    for day 15 of the resolved month and year has a price [h] in the
    lower-cased currency and the price query gives a snapshot [p]; it then
    returns the units [amount / h], the value [units * CurrentPrice p] and
    [h].  With the amount 100, [h] = 200 and a current price of 2000 these
    are 0.5, 1000 and 200. *)
Theorem ifIBought_units_and_value cq token currency year month amount :
  (∀ u v h,
     (ifIBought W cq token currency year month amount).1 = Returned (inr (u, v, h))
     ↔ ∃ id data md p,
         lookup cq token = Some id
         ∧ gecko.CoinsIDHistory (gc cq) id (dateStr (resolveMonth W month) year) false
           = inr data
         ∧ CoinsIDHistory.MarketData data = Some md
         ∧ MarketDataItem.CurrentPrice md !! strs.ToLower currency = Some h
         ∧ lookupPrice W cq token (strs.ToLower currency) = inr p
         ∧ u = (amount / h)%float
         ∧ v = (u * CoinsMarketItem.CurrentPrice p)%float)
  ∧ (∀ id data md p,
       lookup cq token = Some id →
       gecko.CoinsIDHistory (gc cq) id (dateStr (resolveMonth W month) year) false
         = inr data →
       CoinsIDHistory.MarketData data = Some md →
       MarketDataItem.CurrentPrice md !! strs.ToLower currency = Some 200%float →
       lookupPrice W cq token (strs.ToLower currency) = inr p →
       CoinsMarketItem.CurrentPrice p = 2000%float →
       amount = 100%float →
       (ifIBought W cq token currency year month amount).1
       = Returned (inr (0.5%float, 1000%float, 200%float))).
Proof.
  split.
  - intros u v h. split; [apply ifIBought_success_inv|].
    intros (id & data & md & p & Hid & Hcall & Hmd & Hh & Hp & -> & ->).
    by rewrite (ifIBought_success _ _ _ _ _ _ _ _ _ _ _ Hid Hcall Hmd Hh Hp).
  - intros id data md p Hid Hcall Hmd Hh Hp Hnow ->.
    rewrite (ifIBought_success _ _ _ _ _ _ _ _ _ _ _ Hid Hcall Hmd Hh Hp), Hnow.
    reflexivity.
Qed.

End WhatIf.

Lemma ifIBought_failures_witness :
  lookup (Fixture.withHistory (inl DeadlineExceeded)) "ETH" = Some "ethereum"%string
  ∧ (ifIBought Fixture.july
       (Fixture.withHistory (inl (wrapError "Get: context deadline exceeded" DeadlineExceeded)))
       "ETH" "USD" 2018 0 100).1
    = Returned (inl (errorString "CoinGecko API connection failed 🤕"))
  ∧ (ifIBought Fixture.july
       (Fixture.withHistory (inl (errorString "connection refused")))
       "ETH" "USD" 2018 0 100).1
    = Returned (inl (errorString "ETH not supported"))
  ∧ (ifIBought Fixture.july
       (Fixture.withHistory (inr {| CoinsIDHistory.MarketData := None |}))
       "ETH" "USD" 2018 0 100).1
    = Returned (inl (errorString "No data available for year 2018"))
  ∧ (ifIBought Fixture.july
       (Fixture.withHistory (Fixture.historyAt {[ "eur"%string := 180%float ]}))
       "ETH" "USD" 2018 0 100).1
    = Returned (inl (errorString "usd not supported")).
Proof.
  split; [reflexivity|]. split; [|split; [|split]].
  - destruct (ifIBought_failures Fixture.july
                (Fixture.withHistory
                   (inl (wrapError "Get: context deadline exceeded" DeadlineExceeded)))
                "ETH" "USD" 2018 0 100 "ethereum" eq_refl) as (Hdeadline & _).
    rewrite (Hdeadline _ eq_refl eq_refl). reflexivity.
  - destruct (ifIBought_failures Fixture.july
                (Fixture.withHistory (inl (errorString "connection refused")))
                "ETH" "USD" 2018 0 100 "ethereum" eq_refl) as (_ & Hother & _).
    rewrite (Hother _ eq_refl eq_refl). reflexivity.
  - destruct (ifIBought_failures Fixture.july
                (Fixture.withHistory (inr {| CoinsIDHistory.MarketData := None |}))
                "ETH" "USD" 2018 0 100 "ethereum" eq_refl) as (_ & _ & Hnodata & _).
    rewrite (Hnodata _ eq_refl eq_refl). reflexivity.
  - destruct (ifIBought_failures Fixture.july
                (Fixture.withHistory (Fixture.historyAt {[ "eur"%string := 180%float ]}))
                "ETH" "USD" 2018 0 100 "ethereum" eq_refl) as (_ & _ & _ & Hcurrency).
    rewrite (Hcurrency _ _ eq_refl eq_refl eq_refl). reflexivity.
Defined.

Lemma ifIBought_units_and_value_witness :
  lookup (Fixture.priced 200 2000) "ETH" = Some "ethereum"%string
  ∧ (ifIBought Fixture.july (Fixture.priced 200 2000) "ETH" "USD" 2018 0 100).1
    = Returned (inr (0.5%float, 1000%float, 200%float)).
Proof.
  split; [reflexivity|].
  refine (proj2 (ifIBought_units_and_value Fixture.july (Fixture.priced 200 2000)
                   "ETH" "USD" 2018 0 100)
            "ethereum"%string
            {| CoinsIDHistory.MarketData :=
                 Some {| MarketDataItem.CurrentPrice := {[ "usd"%string := 200%float ]} |} |}
            {| MarketDataItem.CurrentPrice := {[ "usd"%string := 200%float ]} |}
            (Fixture.ethereum 2000 Fixture.athDate)
            eq_refl eq_refl eq_refl eq_refl eq_refl eq_refl eq_refl).
Defined.

(** ** Composing the reply *)

Section Reply.

Variable W : World.
Implicit Types (cq : coinQuerier) (ticker currency : string) (p : CoinsMarketItem.t)
  (t : templateData.t).

Lemma format_panics_on_date t currency e :
  time_Parse W RFC3339 (CoinsMarketItem.ATHDate (templateData.CoinsMarketItem t)) = inl e →
  format W t currency = (Panicked e, []).
Proof. unfold format. by intros ->. Qed.

Lemma format_panics_on_goment t currency pt e :
  time_Parse W RFC3339 (CoinsMarketItem.ATHDate (templateData.CoinsMarketItem t)) = inr pt →
  goment_New W pt = inl e →
  format W t currency = (Panicked e, []).
Proof. unfold format. by intros -> ->. Qed.

Lemma format_returns t currency pt mt :
  time_Parse W RFC3339 (CoinsMarketItem.ATHDate (templateData.CoinsMarketItem t)) = inr pt →
  goment_New W pt = inr mt →
  ∃ t', format W t currency = (Returned t', [])
        ∧ templateData.ATHDate t' = goment_Format W mt "D MMMM YYYY".
Proof. unfold format. intros -> ->. eexists. split; reflexivity. Qed.

Lemma queryMessage_lookup_error cq ticker currency err :
  lookupPrice W cq ticker currency = inl err →
  queryMessage W cq ticker currency = (Returned (Error err), []).
Proof. unfold queryMessage. by intros ->. Qed.

(** C8, as amended.  For a snapshot whose all-time-high date parses as
    RFC3339 and is accepted by goment, [queryMessage] returns: a failure to
    build or to execute the template is logged and turned into
    ["Cannot query CoinGecko API"], and otherwise the rendered text is
    returned.  For a snapshot whose date does not parse, or that goment
    rejects, [format] panics with that error and [queryMessage] does not
    return. *)
Theorem queryMessage_outcomes cq ticker currency p :
  lookupPrice W cq ticker currency = inr p →
  (∀ pt mt,
     time_Parse W RFC3339 (CoinsMarketItem.ATHDate p) = inr pt →
     goment_New W pt = inr mt →
     ∃ t,
       format W (templateData.of_item p) currency = (Returned t, [])
       ∧ (∀ e, template_Parse W coinInfoFmt = inl e →
            queryMessage W cq ticker currency
            = (Returned cannotQuery,
               [Logged ("cannot generate message template: " +:+ Error e)]))
       ∧ (∀ tpl e, template_Parse W coinInfoFmt = inr tpl →
            template_Execute W tpl (templateField t) = inl e →
            queryMessage W cq ticker currency
            = (Returned cannotQuery,
               [Logged ("cannot execute message template: " +:+ Error e)]))
       ∧ (∀ tpl out, template_Parse W coinInfoFmt = inr tpl →
            template_Execute W tpl (templateField t) = inr out →
            queryMessage W cq ticker currency = (Returned out, [])))
  ∧ (∀ e,
       time_Parse W RFC3339 (CoinsMarketItem.ATHDate p) = inl e →
       queryMessage W cq ticker currency = (Panicked e, []))
  ∧ (∀ pt e,
       time_Parse W RFC3339 (CoinsMarketItem.ATHDate p) = inr pt →
       goment_New W pt = inl e →
       queryMessage W cq ticker currency = (Panicked e, [])).
Proof.
  intros Hp. unfold queryMessage. rewrite Hp. split; [|split].
  - intros pt mt Hpt Hmt.
    destruct (format_returns (templateData.of_item p) currency pt mt Hpt Hmt)
      as (t & Ht & _).
    exists t. rewrite Ht. split; [done|]. split; [|split].
    + intros e He. run_M. by rewrite He.
    + intros tpl e Htpl He. run_M. by rewrite Htpl, He.
    + intros tpl out Htpl Hout. run_M. by rewrite Htpl, Hout.
  - intros e He.
    by rewrite (format_panics_on_date (templateData.of_item p) currency e He).
  - intros pt e Hpt He.
    by rewrite (format_panics_on_goment (templateData.of_item p) currency pt e Hpt He).
Qed.

End Reply.

Lemma queryMessage_outcomes_witness :
  lookupPrice Fixture.july (Fixture.priced 200 2000) "ETH" "USD"
    = inr (Fixture.ethereum 2000 Fixture.athDate)
  ∧ queryMessage
      (withTemplates Fixture.july unit (λ _, inl (errorString "unexpected EOF"))
         (λ _ _, inr EmptyString))
      (Fixture.priced 200 2000) "ETH" "USD"
    = (Returned cannotQuery, [Logged "cannot generate message template: unexpected EOF"])
  ∧ queryMessage
      (withTemplates Fixture.july unit (λ _, inr ())
         (λ _ _, inl (errorString "short write")))
      (Fixture.priced 200 2000) "ETH" "USD"
    = (Returned cannotQuery, [Logged "cannot execute message template: short write"])
  ∧ (queryMessage Fixture.july
       (Fixture.querier (inr Fixture.coins) (inr [Fixture.ethereum 2000 "yesterday"])
          (Fixture.historyAt ∅)) "ETH" "USD").1
    = Panicked (errorString
        ("parsing time " +:+ strs.dquote +:+ "yesterday" +:+ strs.dquote +:+ " as "
         +:+ strs.dquote +:+ RFC3339 +:+ strs.dquote)).
Proof.
  split; [reflexivity|]. split; [|split].
  - destruct (queryMessage_outcomes
                (withTemplates Fixture.july unit (λ _, inl (errorString "unexpected EOF"))
                   (λ _ _, inr EmptyString))
                (Fixture.priced 200 2000) "ETH" "USD" _ eq_refl) as (Hreturns & _).
    destruct (Hreturns Fixture.athDate Fixture.athDate eq_refl eq_refl)
      as (t & _ & Hparse & _).
    exact (Hparse _ eq_refl).
  - destruct (queryMessage_outcomes
                (withTemplates Fixture.july unit (λ _, inr ())
                   (λ _ _, inl (errorString "short write")))
                (Fixture.priced 200 2000) "ETH" "USD" _ eq_refl) as (Hreturns & _).
    destruct (Hreturns Fixture.athDate Fixture.athDate eq_refl eq_refl)
      as (t & _ & _ & Hexecute & _).
    exact (Hexecute () _ eq_refl eq_refl).
  - destruct (queryMessage_outcomes Fixture.july
                (Fixture.querier (inr Fixture.coins) (inr [Fixture.ethereum 2000 "yesterday"])
                   (Fixture.historyAt ∅)) "ETH" "USD" _ eq_refl) as (_ & Hpanic & _).
    rewrite (Hpanic _ eq_refl). reflexivity.
Defined.

(** C8, as stated, fails on a snapshot without an all-time-high date: the
    empty string is no RFC3339 date, [format] panics, and neither
    [queryMessage] nor the text handler that called it returns or sends
    anything. *)
Lemma queryMessage_panics_on_missing_date :
  ∃ e,
    time_Parse Fixture.july RFC3339 "" = inl e
    ∧ queryMessage Fixture.july
        (Fixture.querier (inr Fixture.coins) (inr [Fixture.ethereum 2000 ""])
           (Fixture.historyAt ∅)) "ETH" "USD"
      = (Panicked e, [])
    ∧ onText Fixture.july
        (Fixture.querier (inr Fixture.coins) (inr [Fixture.ethereum 2000 ""])
           (Fixture.historyAt ∅)) {| MsgChat := 1; Text := "%eth" |}
      = (Panicked e, []).
Proof. eexists. repeat split; vm_compute; reflexivity. Qed.

(** ** The /whatif handler *)

Section WhatIfHandler.

Variable W : World.
Implicit Types (cq : coinQuerier) (m : Message) (f : list string).

(** With four arguments the month is what [strconv.Atoi] makes of the third
    one, the year. *)
Lemma whatifMonth_four to f :
  length f = 4%nat →
  whatifMonth to f
  = (Returned (strconv.Atoi (f !!! 2%nat)).1,
     match (strconv.Atoi (f !!! 2%nat)).2 with
     | Some _ => [SentText to "Malformed month"]
     | None => []
     end).
Proof.
  intros Hlen. unfold whatifMonth. rewrite decide_True by done.
  destruct (strconv.Atoi (f !!! 2%nat)) as [mm [err|]]; reflexivity.
Qed.

(** Once the year is parsed the month block sends nothing. *)
Lemma whatifMonth_after_year to f year :
  strconv.Atoi (f !!! 2%nat) = (year, None) →
  whatifMonth to f = (Returned (if decide (length f = 4%nat) then year else 0), []).
Proof.
  intros Hyear. unfold whatifMonth. case_decide; [|done]. by rewrite Hyear.
Qed.

(** The sentence that answers a well-formed message. *)
Lemma whatif_reply cq m cmd f amount year u new oldPrice evs :
  strs.Fields (Text m) = cmd :: f →
  (3 ≤ length f)%nat →
  ParseFloat W (f !!! 0%nat) = (amount, None) →
  strconv.Atoi (f !!! 2%nat) = (year, None) →
  ifIBought W cq (f !!! 1%nat) defaultCurrency year
    (if decide (length f = 4%nat) then year else 0) amount
  = (Returned (inr (u, new, oldPrice)), evs) →
  whatif W cq m
  = (Returned (),
     evs ++ [SentText (MsgChat m)
               (ifIHadFmt (FormatMoneyInt W (accountingFor W defaultCurrency) 500)
                  (strs.ToUpper (f !!! 1%nat)) year
                  (FormatMoneyFloat64 W (accountingFor W defaultCurrency) oldPrice)
                  (FormatMoneyFloat64 W (accountingFor W defaultCurrency) new))]).
Proof.
  intros Hf Hlen Hamount Hyear Hbought. unfold whatif.
  rewrite Hf, decide_False by lia. rewrite Hamount, Hyear.
  rewrite (whatifMonth_after_year _ _ _ Hyear). run_M. rewrite Hbought. reflexivity.
Qed.

End WhatIfHandler.

Example onText_eth :
  onText Fixture.july (Fixture.priced 200 2000) {| MsgChat := 1; Text := "%eth usd" |}
  = (Returned (),
     [SentText 1
        "Ethereum ($ETH)

Price: $2,000.00 (0.62% 🤑)
Market cap: $240,000,000,000.00(-0.50% 🤑)
ATH: $4,878.25 (10 November 2021) 🌝
Last 24H high: $2,050.50
Last 24H low: $1,980.25
";
      SentSticker 1]).
Proof. vm_compute. reflexivity. Qed.

Example onText_three_fields :
  onText Fixture.july (Fixture.priced 200 2000) {| MsgChat := 1; Text := "%A B C" |}
  = (Returned (), [Logged "cannot split query data: no fields available"]).
Proof. vm_compute. reflexivity. Qed.

Example whatif_usage :
  whatif Fixture.july (Fixture.priced 200 2000) {| MsgChat := 1; Text := "/whatif 100 ETH" |}
  = (Returned (), [SentText 1 "Syntax: /whatif amount token year [month number]"])
  ∧ whatif Fixture.july (Fixture.priced 200 2000)
      {| MsgChat := 1; Text := "/whatif lots ETH 2018" |}
    = (Returned (), [SentText 1 "Malformed amount"])
  ∧ whatif Fixture.july (Fixture.priced 200 2000)
      {| MsgChat := 1; Text := "/whatif 100 ETH then" |}
    = (Returned (), [SentText 1 "Malformed year"]).
Proof. repeat split; vm_compute; reflexivity. Qed.

(** C1, on the message [/whatif 100 ETH 2018].  The sentence sent opens with
    the formatted constant 500; the amount of the message, 100, which would
    read [$100.00], is not in it. *)
Theorem whatif_reply_shows_500 :
  whatif Fixture.july (Fixture.priced 200 2000)
    {| MsgChat := 1; Text := "/whatif 100 ETH 2018" |}
  = (Returned (),
     [Logged "15-7-2018";
      SentText 1
        "$500.00 worth of ETH in 2018 (priced at $200.00) are now worth $1,000.00 😱"])
  ∧ FormatMoneyInt Fixture.july (accountingFor Fixture.july defaultCurrency) 100
    = "$100.00"%string
  ∧ FormatMoneyFloat64 Fixture.july (accountingFor Fixture.july defaultCurrency) 100
    = "$100.00"%string.
Proof. repeat split; vm_compute; reflexivity. Qed.

(** C2, on the message [/whatif 100 ETH 2018 3].  The month block parses the
    third argument again: the month handed to [ifIBought] is 2018, not 3, and
    the history is asked for the month of the clock, here July. *)
Theorem whatif_month_reads_year :
  strconv.Atoi "3" = (3, None)
  ∧ whatifMonth 1 ["100"; "ETH"; "2018"; "3"]%string = (Returned 2018, [])
  ∧ resolveMonth Fixture.july 2018 = 7
  ∧ resolveMonth Fixture.july 3 = 3
  ∧ whatif Fixture.july (Fixture.priced 200 2000)
      {| MsgChat := 1; Text := "/whatif 100 ETH 2018 3" |}
    = (Returned (),
       [Logged "15-7-2018";
        SentText 1
          "$500.00 worth of ETH in 2018 (priced at $200.00) are now worth $1,000.00 😱"]).
Proof. repeat split; vm_compute; reflexivity. Qed.

(** C10, on the message [/whatif 100 ETH 2018 foo].  The fourth argument is
    no integer, and yet no ["Malformed month"] is sent: the month block
    parses the year, which is well formed, and goes on with the month 2018. *)
Theorem whatif_month_not_checked :
  (strconv.Atoi "foo").1 = 0
  ∧ is_Some (strconv.Atoi "foo").2
  ∧ whatifMonth 1 ["100"; "ETH"; "2018"; "foo"]%string = (Returned 2018, [])
  ∧ whatif Fixture.july (Fixture.priced 200 2000)
      {| MsgChat := 1; Text := "/whatif 100 ETH 2018 foo" |}
    = (Returned (),
       [Logged "15-7-2018";
        SentText 1
          "$500.00 worth of ETH in 2018 (priced at $200.00) are now worth $1,000.00 😱"]).
Proof.
  split; [reflexivity|]. split; [by eexists|].
  split; vm_compute; reflexivity.
Qed.

(** ** The sticker trigger *)

Lemma five_and_three (v : Z) : v mod 5 = 0 ∧ v mod 3 = 0 ↔ v mod 15 = 0.
Proof.
  split; [intros [H5 H3]|intros H15; split];
    Z.to_euclidean_division_equations; lia.
Qed.

Lemma doIt_true (W : World) :
  doIt W = true ↔ ∃ v, binary_Read_rand W = inr v ∧ v mod 5 = 0 ∧ v mod 3 = 0.
Proof.
  unfold doIt. destruct (binary_Read_rand W) as [err|v].
  - split; [done|]. by intros (v & [=] & _).
  - destruct (Z.eqb_spec (v mod 5) 0) as [H5|H5], (Z.eqb_spec (v mod 3) 0) as [H3|H3];
      simpl; split; try done; try (intros (v' & [= <-] & H5' & H3'); done).
    intros _. by exists v.
Qed.

Lemma doIt_withRead (W : World) (v : Z) :
  doIt (withRead W (inr v)) = bool_decide (v mod 15 = 0).
Proof.
  destruct (doIt (withRead W (inr v))) eqn:Hd.
  - apply doIt_true in Hd as (v' & [= <-] & H53).
    symmetry. apply bool_decide_eq_true_2. by apply five_and_three.
  - symmetry. apply bool_decide_eq_false_2. intros H15.
    apply five_and_three in H15.
    assert (doIt (withRead W (inr v)) = true) as Ht by (apply doIt_true; by exists v).
    congruence.
Qed.

Lemma hits_succ (W : World) (n : N) :
  hits W (N.succ n)
  = (if bool_decide (Z.of_N n mod 15 = 0) then N.succ (hits W n) else hits W n).
Proof.
  unfold hits. rewrite N.peano_rect_succ. by rewrite doIt_withRead.
Qed.

(** Below [n] the trigger fires on the multiples of 15, one in every 15
    readings, starting with 0. *)
Lemma hits_count (W : World) (n : N) : hits W n = ((n + 14) / 15)%N.
Proof.
  induction n as [|n IH] using N.peano_ind; [done|].
  rewrite hits_succ, IH.
  case_bool_decide as Hn; zify; Z.to_euclidean_division_equations; lia.
Qed.

(** C9, as amended.  [doIt] answers [true] exactly when the reading succeeds
    with a value divisible by 5 and by 3, that is by 15, and [false] when
    the reading fails.  Of the 2^64 values of a [uint64] it fires on
    1229782938247303442, the multiples of 15 from 0 on: 15 times that number
    is 2^64 + 14, and the chance of a sticker on a uniform reading is 1/15
    plus 14/(15 * 2^64). *)
Theorem doIt_fires_on_multiples_of_15 (W : World) :
  (doIt W = true ↔ ∃ v, binary_Read_rand W = inr v ∧ v mod 5 = 0 ∧ v mod 3 = 0)
  ∧ (doIt W = true ↔ ∃ v, binary_Read_rand W = inr v ∧ v mod 15 = 0)
  ∧ (∀ err, binary_Read_rand W = inl err → doIt W = false)
  ∧ hits W uint64Values = 1229782938247303442%N
  ∧ (15 * hits W uint64Values = uint64Values + 14)%N
  ∧ (successProbability W == (1 # 15) + (14 # 276701161105643274240))%Q.
Proof.
  split; [apply doIt_true|]. split; [|split; [|split; [|split]]].
  - rewrite doIt_true. split; intros (v & Hv & H); exists v; split; try done.
    + by apply five_and_three.
    + by apply five_and_three in H.
  - intros err Herr. unfold doIt. by rewrite Herr.
  - rewrite hits_count. reflexivity.
  - rewrite hits_count. reflexivity.
  - unfold successProbability. rewrite hits_count. reflexivity.
Qed.

Lemma doIt_fires_on_multiples_of_15_witness :
  binary_Read_rand (Fixture.world 7 (inl DeadlineExceeded)) = inl DeadlineExceeded
  ∧ doIt (Fixture.world 7 (inl DeadlineExceeded)) = false
  ∧ doIt (Fixture.world 7 (inr 30)) = true.
Proof.
  split; [reflexivity|]. split.
  - destruct (doIt_fires_on_multiples_of_15 (Fixture.world 7 (inl DeadlineExceeded)))
      as (_ & _ & Hfail & _).
    exact (Hfail DeadlineExceeded eq_refl).
  - destruct (doIt_fires_on_multiples_of_15 (Fixture.world 7 (inr 30)))
      as (_ & H15 & _).
    apply H15. exists 30. split; reflexivity.
Defined.

(** C9, as stated, fails in its probability: 2^64 is no multiple of 15, and
    the chance that a uniform reading of the 2^64 values fires the trigger is
    not 1/15. *)
Lemma doIt_probability_not_one_in_15 :
  ¬ (successProbability Fixture.july == 1 # 15)%Q.
Proof.
  unfold successProbability. rewrite hits_count.
  intros H. vm_compute in H. discriminate H.
Qed.

(** * Further properties of the program *)

(** ** Case of letters *)






(** ** The cache across refreshes *)

Lemma buildIDMap_dom (l : list CoinsListItem.t) :
  dom (buildIDMap l) =@{gset string} list_to_set (CoinsListItem.Symbol <$> l).
Proof.
  unfold buildIDMap. induction l as [|e l IH] using rev_ind.
  - simpl. apply dom_empty_L.
  - rewrite foldl_snoc, dom_insert_L, IH, fmap_app, list_to_set_app_L.
    change (CoinsListItem.Symbol <$> [e]) with [CoinsListItem.Symbol e].
    rewrite (list_to_set_singleton_L (C := gset string)). apply (comm_L (∪)).
Qed.

Lemma buildIDMap_size (l : list CoinsListItem.t) : (size (buildIDMap l) ≤ length l)%nat.
Proof.
  unfold buildIDMap. induction l as [|e l IH] using rev_ind; [done|].
  rewrite foldl_snoc, map_size_insert, length_app. simpl.
  destruct (foldl _ _ _ !! _); simpl; lia.
Qed.

(** X1.  A successful refresh replaces the mapping wholesale: the new mapping
    is read off the fetched list alone, whatever was cached before, and a
    token whose lower-cased form is no symbol of the list is no longer
    found. *)
Theorem loadCoinIDs_replaces_mapping (cq cq' : coinQuerier) (l : list CoinsListItem.t) :
  gecko.CoinsList (gc cq) = inr l →
  gecko.CoinsList (gc cq') = inr l →
  idMap (loadCoinIDs cq).2 = idMap (loadCoinIDs cq').2
  ∧ gc (loadCoinIDs cq).2 = gc cq
  ∧ ∀ token,
      Forall (λ e, CoinsListItem.Symbol e ≠ strs.ToLower token) l →
      lookup (loadCoinIDs cq).2 token = None.
Proof.
  intros Hl Hl'. rewrite (loadCoinIDs_ok cq l Hl), (loadCoinIDs_ok cq' l Hl'). simpl.
  split; [done|]. split; [done|].
  intros token Hnone. unfold lookup. simpl. by apply buildIDMap_absent.
Qed.

Lemma loadCoinIDs_replaces_mapping_witness :
  gecko.CoinsList (gc (Fixture.idle (inr Scenario.dogeOnly))) = inr Scenario.dogeOnly
  ∧ lookup (Fixture.idle (inr Scenario.dogeOnly)) "ETH" = Some "ethereum"%string
  ∧ lookup (loadCoinIDs (Fixture.idle (inr Scenario.dogeOnly))).2 "ETH" = None.
Proof.
  split; [reflexivity|]. split; [reflexivity|].
  destruct (loadCoinIDs_replaces_mapping
              (Fixture.idle (inr Scenario.dogeOnly)) (Fixture.idle (inr Scenario.dogeOnly))
              Scenario.dogeOnly eq_refl eq_refl) as (_ & _ & Hgone).
  apply Hgone. repeat constructor. vm_compute. discriminate.
Defined.

(** X2.  The refreshed cache has one entry for each distinct symbol of the
    list: its keys are the symbols of the list, it never has more entries
    than the list, and it has as many when no symbol is listed twice. *)
Theorem loadCoinIDs_size (cq : coinQuerier) (l : list CoinsListItem.t) :
  gecko.CoinsList (gc cq) = inr l →
  dom (idMap (loadCoinIDs cq).2) =@{gset string} list_to_set (CoinsListItem.Symbol <$> l)
  ∧ (size (idMap (loadCoinIDs cq).2) ≤ length l)%nat
  ∧ (NoDup (CoinsListItem.Symbol <$> l) → size (idMap (loadCoinIDs cq).2) = length l).
Proof.
  intros Hl. rewrite (loadCoinIDs_ok cq l Hl). simpl.
  split; [apply buildIDMap_dom|].
  split; [apply buildIDMap_size|].
  intros Hnodup.
  by rewrite <- (size_dom (D := gset string)), buildIDMap_dom, size_list_to_set, length_fmap.
Qed.

Lemma loadCoinIDs_size_witness :
  gecko.CoinsList (gc (Fixture.idle (inr Fixture.twiceCoins))) = inr Fixture.twiceCoins
  ∧ (size (idMap (loadCoinIDs (Fixture.idle (inr Fixture.twiceCoins))).2) ≤ 3)%nat
  ∧ size (idMap (loadCoinIDs (Fixture.idle (inr Fixture.twiceCoins))).2) = 2%nat.
Proof.
  split; [reflexivity|]. split; [|vm_compute; reflexivity].
  exact (proj1 (proj2 (loadCoinIDs_size (Fixture.idle (inr Fixture.twiceCoins))
                         Fixture.twiceCoins eq_refl))).
Defined.

Lemma refreshPass_answering (cq : coinQuerier) (answer : result (list CoinsListItem.t)) :
  refreshPass (answering cq answer)
  = match answer with
    | inl err =>
        (answering cq answer, [Logged ("background id update error: " +:+ Error err)])
    | inr l => (answering {| gc := gc cq; idMap := buildIDMap l |} answer, [])
    end.
Proof. by destruct answer. Qed.

(** X3.  Whatever the service answers pass after pass, the loop goes on, and
    after any number of passes the mapping is the one built from the latest
    list that was fetched, or the mapping the loop started with when every
    fetch failed; the log has one line for each failed fetch, in order, and
    nothing else. *)
Theorem backgroundIDUpdates_keeps_last_success
    (answers : list (result (list CoinsListItem.t))) (cq : coinQuerier) :
  idMap (backgroundIDUpdates answers cq).1
  = match last (omap (λ answer, match answer with inr l => Some l | inl _ => None end)
                  answers) with
    | Some l => buildIDMap l
    | None => idMap cq
    end
  ∧ (backgroundIDUpdates answers cq).2
    = (λ err, Logged ("background id update error: " +:+ Error err))
        <$> omap (λ answer, match answer with inl err => Some err | inr _ => None end)
              answers.
Proof.
  revert cq. induction answers as [|answer later IH]; intros cq; [done|].
  cbn [backgroundIDUpdates]. rewrite refreshPass_answering.
  destruct answer as [err|l].
  - destruct (IH (answering cq (inl err))) as [Hmap Hlog].
    destruct (backgroundIDUpdates later _) as [cq2 evs2]. simpl in *.
    by rewrite Hmap, Hlog.
  - destruct (IH (answering {| gc := gc cq; idMap := buildIDMap l |} (inr l)))
      as [Hmap Hlog].
    destruct (backgroundIDUpdates later _) as [cq2 evs2]. simpl in *.
    rewrite Hmap, Hlog, last_cons. split; [|done].
    by destruct (last _).
Qed.

Example backgroundIDUpdates_outage :
  lookup (backgroundIDUpdates
            [inr Fixture.coins; inl DeadlineExceeded; inr Scenario.dogeOnly;
             inl (errorString "EOF")]
            {| gc := Fixture.client (inr []) (inr []) (Fixture.historyAt ∅);
               idMap := ∅ |}).1 "DOGE"
  = Some "dogecoin"%string
  ∧ (backgroundIDUpdates
       [inr Fixture.coins; inl DeadlineExceeded; inr Scenario.dogeOnly;
        inl (errorString "EOF")]
       {| gc := Fixture.client (inr []) (inr []) (Fixture.historyAt ∅);
          idMap := ∅ |}).2
    = [Logged "background id update error: context deadline exceeded";
       Logged "background id update error: EOF"].
Proof. split; vm_compute; reflexivity. Qed.

(** ** Tickers and currencies in any case *)



(** X5.  [lookupPrice] succeeds with a snapshot exactly when the ticker
    resolves to an identifier and the service answers the market request for
    that identifier and the given currency with a list that starts with this
    snapshot; further items of the list are ignored. *)
Theorem lookupPrice_success (W : World) (cq : coinQuerier) (token currency : string)
    (p : CoinsMarketItem.t) :
  lookupPrice W cq token currency = inr p
  ↔ ∃ id r,
      lookup cq token = Some id
      ∧ gecko.CoinsMarket (gc cq) currency [id] "market_cap_desc" 250 1 false ["24h"%string]
        = inr (p :: r).
Proof.
  unfold lookupPrice. split.
  - destruct (lookup cq token) as [id|]; [|discriminate].
    destruct (gecko.CoinsMarket _ _ _ _ _ _ _ _) as [err|[|p0 r]] eqn:Hcall.
    + destruct (json_Unmarshal W (Error err)) as [|v]; [discriminate|].
      case_decide; discriminate.
    + discriminate.
    + intros [= ->]. by exists id, r.
  - by intros (id & r & -> & ->).
Qed.

(** ** More on the what-if computation *)

(** X6.  With a clock that shows a month from 1 to 12, a month argument
    outside 1 to 12 gives what the month of the clock gives: the same
    request, the same log and the same result. *)
Theorem ifIBought_month_out_of_range (W : World) (cq : coinQuerier)
    (token currency : string) (year month : Z) (amount : float) :
  1 ≤ Now_Month W ≤ 12 →
  month ≤ 0 ∨ 12 < month →
  ifIBought W cq token currency year month amount
  = ifIBought W cq token currency year (Now_Month W) amount.
Proof.
  intros Hnow Hmonth. unfold ifIBought.
  by rewrite (resolveMonth_out_of_range W month Hmonth),
    (resolveMonth_in_range W (Now_Month W) Hnow).
Qed.

Lemma ifIBought_month_out_of_range_witness :
  1 ≤ Now_Month Fixture.july ≤ 12
  ∧ (13 ≤ 0 ∨ 12 < 13)
  ∧ ifIBought Fixture.july (Fixture.priced 200 2000) "ETH" "USD" 2018 13 100
    = ifIBought Fixture.july (Fixture.priced 200 2000) "ETH" "USD" 2018 7 100.
Proof.
  assert (1 ≤ Now_Month Fixture.july ≤ 12) as Hnow by (simpl; lia).
  assert (13 ≤ 0 ∨ 12 < 13) as Hmonth by lia.
  split; [exact Hnow|]. split; [exact Hmonth|].
  exact (ifIBought_month_out_of_range Fixture.july (Fixture.priced 200 2000)
           "ETH" "USD" 2018 13 100 Hnow Hmonth).
Defined.

(** X7.  [ifIBought] takes no notice of the case of letters.  Two spellings
    of the currency with the same lower-cased form give the same log and the
    same result; and when it succeeds for a ticker, it does the same for
    every spelling of the ticker with the same lower-cased form. *)
Theorem ifIBought_case_insensitive (W : World) (cq : coinQuerier)
    (token token' currency currency' : string) (year month : Z) (amount : float) :
  strs.ToLower currency = strs.ToLower currency' →
  ifIBought W cq token currency year month amount
  = ifIBought W cq token currency' year month amount
  ∧ (strs.ToLower token = strs.ToLower token' →
     ∀ x, (ifIBought W cq token currency year month amount).1 = Returned (inr x) →
          ifIBought W cq token' currency' year month amount
          = ifIBought W cq token currency year month amount).
Proof.
  intros Hcurrency. unfold ifIBought, lookupPrice, lookup. rewrite <- Hcurrency.
  split; [done|]. intros <- x.
  destruct (idMap cq !! strs.ToLower token) as [id|]; [|discriminate].
  destruct (gecko.CoinsIDHistory _ _ _ _) as [err|data]; [discriminate|].
  destruct (CoinsIDHistory.MarketData data) as [md|]; [|discriminate].
  destruct (MarketDataItem.CurrentPrice md !! _) as [h|]; [|discriminate].
  destruct (gecko.CoinsMarket _ _ _ _ _ _ _ _) as [err|[|p r]]; [|discriminate|done].
  destruct (json_Unmarshal W (Error err)) as [jerr|v]; [discriminate|].
  case_decide; discriminate.
Qed.

Lemma ifIBought_case_insensitive_witness :
  strs.ToLower "USD" = strs.ToLower "Usd"
  ∧ strs.ToLower "ETH" = strs.ToLower "eth"
  ∧ ifIBought Fixture.july (Fixture.priced 200 2000) "eth" "Usd" 2018 3 100
    = ifIBought Fixture.july (Fixture.priced 200 2000) "ETH" "USD" 2018 3 100.
Proof.
  split; [reflexivity|]. split; [reflexivity|].
  exact (proj2 (ifIBought_case_insensitive Fixture.july (Fixture.priced 200 2000)
                  "ETH" "eth" "USD" "Usd" 2018 3 100 eq_refl)
           eq_refl (0.5%float, 1000%float, 200%float) eq_refl).
Defined.

(** X8.  [ifIBought] always returns: it never panics and never sends a
    message.  It logs at most two lines, the first of which is the date it
    asks the history for, and for a ticker that the cache does not resolve it
    logs nothing, since it makes no request. *)
Theorem ifIBought_returns_and_logs (W : World) (cq : coinQuerier)
    (token currency : string) (year month : Z) (amount : float) :
  ∃ r evs,
    ifIBought W cq token currency year month amount = (Returned r, evs)
    ∧ (evs = []
       ∨ evs = [Logged (dateStr (resolveMonth W month) year)]
       ∨ ∃ line, evs = [Logged (dateStr (resolveMonth W month) year); Logged line])
    ∧ (lookup cq token = None → evs = [] ∧ r = inl (notSupported token)).
Proof.
  unfold ifIBought.
  destruct (lookup cq token) as [id|];
    [|eexists _, _; split; [reflexivity|]; split; [by left|done]].
  destruct (gecko.CoinsIDHistory _ _ _ _) as [err|data].
  { eexists _, _. split; [reflexivity|]. split; [|done].
    right; right. by eexists. }
  destruct (CoinsIDHistory.MarketData data) as [md|];
    [|eexists _, _; split; [reflexivity|]; split; [by right; left|done]].
  destruct (MarketDataItem.CurrentPrice md !! _) as [h|];
    [|eexists _, _; split; [reflexivity|]; split; [by right; left|done]].
  destruct (lookupPrice _ _ _ _) as [err|p];
    eexists _, _; (split; [reflexivity|]; split; [by right; left|done]).
Qed.

Lemma ifIBought_returns_and_logs_witness :
  lookup (Fixture.priced 200 2000) "DOGE" = None
  ∧ ∃ r evs,
      ifIBought Fixture.july (Fixture.priced 200 2000) "DOGE" "USD" 2018 3 100
      = (Returned r, evs)
      ∧ evs = [] ∧ r = inl (notSupported "DOGE").
Proof.
  split; [reflexivity|].
  destruct (ifIBought_returns_and_logs Fixture.july (Fixture.priced 200 2000)
              "DOGE" "USD" 2018 3 100) as (r & evs & Hrun & _ & Hunknown).
  exists r, evs. split; [exact Hrun|]. exact (Hunknown eq_refl).
Defined.



(** ** Formatting and the reply text *)

(** [format] reads the currency through its upper-cased form only: two
    spellings of a currency that differ in the case of letters format a
    snapshot alike. *)
Lemma format_currency_case (W : World) (t : templateData.t) (currency currency' : string) :
  strs.ToUpper currency = strs.ToUpper currency' →
  format W t currency = format W t currency'.
Proof. intros Hcase. unfold format, accountingFor. by rewrite Hcase. Qed.

Lemma format_currency_case_witness :
  strs.ToUpper "usd" = strs.ToUpper "Usd"
  ∧ format Fixture.july (templateData.of_item (Fixture.ethereum 2000 Fixture.athDate)) "usd"
    = format Fixture.july (templateData.of_item (Fixture.ethereum 2000 Fixture.athDate)) "Usd".
Proof.
  split; [reflexivity|].
  exact (format_currency_case Fixture.july
           (templateData.of_item (Fixture.ethereum 2000 Fixture.athDate))
           "usd" "Usd" eq_refl).
Defined.

(** X10.  [format] logs and sends nothing.  When it returns, the embedded
    snapshot keeps its name and its numbers, its symbol is the upper-cased
    symbol after a dollar sign, and the two emojis that the template reads,
    the one of the price and the one of the market cap, are the same: both
    follow the sign of the 24h price change.  When it panics, the value is
    the error of parsing the all-time-high date or the error of goment. *)
Theorem format_result (W : World) (t : templateData.t) (currency : string) :
  match format W t currency with
  | (Returned t', evs) =>
      evs = []
      ∧ CoinsMarketItem.Symbol (templateData.CoinsMarketItem t')
        = "$" +:+ strs.ToUpper (CoinsMarketItem.Symbol (templateData.CoinsMarketItem t))
      ∧ CoinsMarketItem.Name (templateData.CoinsMarketItem t')
        = CoinsMarketItem.Name (templateData.CoinsMarketItem t)
      ∧ CoinsMarketItem.CurrentPrice (templateData.CoinsMarketItem t')
        = CoinsMarketItem.CurrentPrice (templateData.CoinsMarketItem t)
      ∧ CoinsMarketItem.PriceChange24h (templateData.CoinsMarketItem t')
        = CoinsMarketItem.PriceChange24h (templateData.CoinsMarketItem t)
      ∧ templateField t' "PriceEmoji"
        = Some (if (0 <? CoinsMarketItem.PriceChange24h (templateData.CoinsMarketItem t))%float
                then "🤑" else "🤮")
      ∧ templateField t' "MarketCapEmoji" = templateField t' "PriceEmoji"
  | (Panicked e, evs) =>
      evs = []
      ∧ (time_Parse W RFC3339
           (CoinsMarketItem.ATHDate (templateData.CoinsMarketItem t)) = inl e
         ∨ ∃ pt,
             time_Parse W RFC3339
               (CoinsMarketItem.ATHDate (templateData.CoinsMarketItem t)) = inr pt
             ∧ goment_New W pt = inl e)
  end.
Proof.
  unfold format.
  destruct (time_Parse W RFC3339 _) as [e|pt] eqn:Hparse; [by split; [|left]|].
  destruct (goment_New W pt) as [e|mt] eqn:Hnew; [split; [done|right; by exists pt]|].
  repeat split.
Qed.

Lemma queryMessage_cases (W : World) (cq : coinQuerier) (ticker currency : string) :
  (∃ s, queryMessage W cq ticker currency = (Returned s, []))
  ∨ (∃ line, queryMessage W cq ticker currency = (Returned cannotQuery, [Logged line]))
  ∨ (∃ e p,
       queryMessage W cq ticker currency = (Panicked e, [])
       ∧ lookupPrice W cq ticker currency = inr p
       ∧ (time_Parse W RFC3339 (CoinsMarketItem.ATHDate p) = inl e
          ∨ ∃ pt, time_Parse W RFC3339 (CoinsMarketItem.ATHDate p) = inr pt
                  ∧ goment_New W pt = inl e)).
Proof.
  unfold queryMessage.
  destruct (lookupPrice W cq ticker currency) as [err|p]; [left; by eexists|].
  unfold format. simpl.
  destruct (time_Parse W RFC3339 _) as [e|pt] eqn:Hparse.
  { right; right. exists e, p. split; [done|]. split; [done|by left]. }
  destruct (goment_New W pt) as [e|mt] eqn:Hnew.
  { right; right. exists e, p. split; [done|]. split; [done|]. right. by exists pt. }
  run_M.
  destruct (template_Parse W coinInfoFmt) as [e|tpl]; [right; left; by eexists|].
  destruct (template_Execute W tpl _) as [e|out]; [right; left; by eexists|].
  left. by eexists.
Qed.

(** X11.  [queryMessage] sends nothing and logs at most one line, and a line
    only beside the fallback text ["Cannot query CoinGecko API"].  An error
    of the price query becomes the reply text, unlogged: for a ticker that
    the cache does not resolve the reply is the ticker as given followed by
    [" not supported"], whatever the currency. *)
Theorem queryMessage_reply (W : World) (cq : coinQuerier) (ticker currency : string) :
  (∃ r, queryMessage W cq ticker currency = (r, [])
        ∨ ∃ line, queryMessage W cq ticker currency = (Returned cannotQuery, [Logged line]))
  ∧ (∀ err, lookupPrice W cq ticker currency = inl err →
       queryMessage W cq ticker currency = (Returned (Error err), []))
  ∧ (lookup cq ticker = None →
       queryMessage W cq ticker currency = (Returned (ticker +:+ " not supported"), [])).
Proof.
  split; [|split].
  - destruct (queryMessage_cases W cq ticker currency)
      as [[s Hs]|[[line Hline]|(e & p & He & _)]].
    + exists (Returned s). by left.
    + exists (Returned cannotQuery). right. by exists line.
    + exists (Panicked e). by left.
  - apply queryMessage_lookup_error.
  - intros Hnone.
    by rewrite (queryMessage_lookup_error W cq ticker currency _
                  (lookupPrice_unknown W cq ticker currency Hnone)).
Qed.

Lemma queryMessage_reply_witness :
  lookup (Fixture.priced 200 2000) "DOGE" = None
  ∧ queryMessage Fixture.july (Fixture.priced 200 2000) "DOGE" "EUR"
    = (Returned "DOGE not supported"%string, []).
Proof.
  split; [reflexivity|].
  exact (proj2 (proj2 (queryMessage_reply Fixture.july (Fixture.priced 200 2000)
                         "DOGE" "EUR")) eq_refl).
Defined.

(** ** Fields of a text *)

Lemma spaceless_snoc (cur : string) (c : ascii) :
  spaceless (cur +:+ String c EmptyString) = spaceless cur && negb (strs.isSpace c).
Proof.
  induction cur as [|a cur IH]; simpl.
  - by rewrite andb_true_r.
  - rewrite IH. by rewrite andb_assoc.
Qed.


Lemma Fields_from_words (s cur : string) :
  spaceless cur = true →
  Forall (λ w, w ≠ EmptyString ∧ spaceless w = true) (strs.Fields_from cur s).
Proof.
  revert cur. induction s as [|c s IH]; intros cur Hcur; simpl.
  - case_decide; by repeat constructor.
  - destruct (strs.isSpace c) eqn:Hc.
    + case_decide; [by apply IH|]. constructor; [done|by apply IH].
    + apply IH. by rewrite spaceless_snoc, Hcur, Hc.
Qed.

(** Every field is a word: it is not empty and holds no white space. *)
Lemma Fields_words (s : string) :
  Forall (λ w, w ≠ EmptyString ∧ spaceless w = true) (strs.Fields s).
Proof. by apply Fields_from_words. Qed.

(** X12.  [queryData] succeeds exactly on texts of one or two fields.  The
    ticker is the first field and the currency the second one, or [USD] when
    there is one field only; neither is empty or holds white space.  Any
    other text gives the error ["no fields available"]. *)
Theorem queryData_result (s : string) :
  match queryData s with
  | inr (ticker, currency) =>
      (strs.Fields s = [ticker] ∧ currency = "USD"%string
       ∨ strs.Fields s = [ticker; currency])
      ∧ ticker ≠ EmptyString ∧ spaceless ticker = true
      ∧ currency ≠ EmptyString ∧ spaceless currency = true
  | inl err =>
      err = errorString "no fields available"
      ∧ length (strs.Fields s) ≠ 1%nat ∧ length (strs.Fields s) ≠ 2%nat
  end.
Proof.
  unfold queryData. pose proof (Fields_words s) as Hwords.
  destruct (strs.Fields s) as [|f0 [|f1 [|f2 fs]]]; simpl; [done| | |done].
  - apply Forall_cons in Hwords as [[H0 H0'] _]. split; [by left|]. by repeat split.
  - apply Forall_cons in Hwords as [[H0 H0'] Hwords].
    apply Forall_cons in Hwords as [[H1 H1'] _]. split; [by right|]. by repeat split.
Qed.

Example queryData_examples :
  queryData "BTC" = inr ("BTC", "USD")%string
  ∧ queryData " BTC   EUR " = inr ("BTC", "EUR")%string
  ∧ queryData "A B C" = inl (errorString "no fields available")
  ∧ queryData "" = inl (errorString "no fields available").
Proof. repeat split. Qed.

(** ** The text handler *)

Lemma HasPrefix_percent (s : string) :
  strs.HasPrefix s "%" = true ↔ ∃ t, s = String "%" t.
Proof.
  unfold strs.HasPrefix. destruct s as [|b s]; cbn [String.prefix].
  - split; [done|]. by intros [t [=]].
  - destruct (ascii_dec "%" b) as [<-|Hb].
    + split; [by exists s|]. by destruct s.
    + split; [done|]. intros [t [= -> _]]. done.
Qed.

Lemma upper_byte_percent (b : ascii) : strs.upper_byte b = "%"%char ↔ b = "%"%char.
Proof.
  split; [|by intros ->].
  destruct b as [[] [] [] [] [] [] [] []]; intros H; try reflexivity; discriminate H.
Qed.

Lemma HasPrefix_ToUpper (s : string) :
  strs.HasPrefix (strs.ToUpper s) "%" = strs.HasPrefix s "%".
Proof.
  destruct (strs.HasPrefix s "%") eqn:Hs.
  - apply HasPrefix_percent in Hs as [t ->]. by apply HasPrefix_percent; eexists.
  - destruct (strs.HasPrefix (strs.ToUpper s) "%") eqn:Hu; [|done].
    apply HasPrefix_percent in Hu as [t Ht]. destruct s as [|b s]; [done|].
    injection Ht as Hb _. apply upper_byte_percent in Hb as ->.
    assert (strs.HasPrefix (String "%" s) "%" = true) as Hs'
      by (apply HasPrefix_percent; by eexists).
    congruence.
Qed.

(** X13.  The text handler reads a message through its upper-cased text
    only: two messages in the same chat whose texts differ in the case of
    letters are handled alike. *)
Theorem onText_case_insensitive (W : World) (cq : coinQuerier) (m m' : Message) :
  MsgChat m = MsgChat m' →
  strs.ToUpper (Text m) = strs.ToUpper (Text m') →
  onText W cq m = onText W cq m'.
Proof.
  intros Hchat Htext. unfold onText.
  by rewrite <- (HasPrefix_ToUpper (Text m)), <- (HasPrefix_ToUpper (Text m')), Htext, Hchat.
Qed.

Lemma onText_case_insensitive_witness :
  MsgChat {| MsgChat := 1; Text := "%eth usd" |} = MsgChat {| MsgChat := 1; Text := "%Eth USD" |}
  ∧ strs.ToUpper (Text {| MsgChat := 1; Text := "%eth usd" |})
    = strs.ToUpper (Text {| MsgChat := 1; Text := "%Eth USD" |})
  ∧ onText Fixture.july (Fixture.priced 200 2000) {| MsgChat := 1; Text := "%eth usd" |}
    = onText Fixture.july (Fixture.priced 200 2000) {| MsgChat := 1; Text := "%Eth USD" |}.
Proof.
  split; [reflexivity|]. split; [reflexivity|].
  exact (onText_case_insensitive Fixture.july (Fixture.priced 200 2000)
           {| MsgChat := 1; Text := "%eth usd" |} {| MsgChat := 1; Text := "%Eth USD" |}
           eq_refl eq_refl).
Defined.

(** X14.  What the text handler can do with a message.  Without the [%] it
    does nothing; with a text of no field, or of more than two, after the
    [%], it logs the error of [queryData] and sends nothing.  Otherwise it
    sends one text to the chat of the message, after at most one log line,
    and then a sticker to the same chat exactly when [doIt] says so, whether
    the text is a snapshot or the text of an error.  It panics only with the
    error of a date that [format] could not read, before anything is sent:
    the slice that drops the [%] is never out of bounds. *)
Theorem onText_outcomes (W : World) (cq : coinQuerier) (m : Message) :
  (strs.HasPrefix (Text m) "%" = false ∧ onText W cq m = (Returned (), []))
  ∨ (∃ err, onText W cq m = (Returned (), [Logged ("cannot split query data: " +:+ Error err)]))
  ∨ (∃ logs s,
       onText W cq m
       = (Returned (),
          logs ++ SentText (MsgChat m) s
            :: (if doIt W then [SentSticker (MsgChat m)] else []))
       ∧ (logs = [] ∨ ∃ line, logs = [Logged line]))
  ∨ (∃ e p ticker currency,
       onText W cq m = (Panicked e, [])
       ∧ lookupPrice W cq ticker currency = inr p
       ∧ (time_Parse W RFC3339 (CoinsMarketItem.ATHDate p) = inl e
          ∨ ∃ pt, time_Parse W RFC3339 (CoinsMarketItem.ATHDate p) = inr pt
                  ∧ goment_New W pt = inl e)).
Proof.
  unfold onText. destruct (strs.HasPrefix (Text m) "%") eqn:Hprefix; [|by left].
  apply HasPrefix_percent in Hprefix as [t ->]. simpl.
  destruct (queryData (strs.map_bytes strs.upper_byte t)) as [err|[ticker currency]].
  { right; left. by exists err. }
  destruct (queryMessage_cases W cq ticker currency)
    as [[s Hs]|[[line Hline]|(e & p & He & Hp & Hdate)]].
  - right; right; left. exists [], s. split; [|by left].
    run_M. rewrite Hs. by destruct (doIt W).
  - right; right; left. exists [Logged line], cannotQuery. split; [|right; by exists line].
    run_M. rewrite Hline. by destruct (doIt W).
  - right; right; right. exists e, p, ticker, currency. split; [|done].
    run_M. by rewrite He.
Qed.

(** ** More on the /whatif handler *)

(** [ifIBought] returns, and what it leaves in the trace are log lines. *)
Lemma ifIBought_logs_only (W : World) (cq : coinQuerier) (token currency : string)
    (year month : Z) (amount : float) :
  ∃ r evs,
    ifIBought W cq token currency year month amount = (Returned r, evs)
    ∧ Forall (λ e, ∃ line, e = Logged line) evs.
Proof.
  unfold ifIBought.
  destruct (lookup cq token) as [id|]; [|by eexists _, _].
  destruct (gecko.CoinsIDHistory _ _ _ _) as [err|data].
  { eexists _, _. split; [reflexivity|]. repeat constructor; by eexists. }
  destruct (CoinsIDHistory.MarketData data) as [md|];
    [|eexists _, _; split; [reflexivity|]; repeat constructor; by eexists].
  destruct (MarketDataItem.CurrentPrice md !! _) as [h|];
    [|eexists _, _; split; [reflexivity|]; repeat constructor; by eexists].
  destruct (lookupPrice _ _ _ _) as [err|p];
    eexists _, _; (split; [reflexivity|]; repeat constructor; by eexists).
Qed.



(** X16.  [/whatif] answers every message that has a field: the handler
    returns, the last thing it does is to send a text to the chat of the
    message, and before that it only logs or sends to that same chat; it
    never sends a sticker.  On a text without any field the slice that drops
    the command is out of bounds and the handler panics. *)
Theorem whatif_always_answers (W : World) (cq : coinQuerier) (m : Message) :
  (strs.Fields (Text m) ≠ [] →
   ∃ evs s,
     whatif W cq m = (Returned (), evs ++ [SentText (MsgChat m) s])
     ∧ Forall (λ e, match e with
                    | Logged _ => True
                    | SentText to _ => to = MsgChat m
                    | SentSticker _ => False
                    end) evs)
  ∧ (strs.Fields (Text m) = [] →
     whatif W cq m = (Panicked (boundsError "slice bounds out of range [1:0]"), [])).
Proof.
  unfold whatif. split; [|by intros ->].
  destruct (strs.Fields (Text m)) as [|cmd f]; [done|]. intros _.
  case_decide; [by exists []; eexists|].
  destruct (ParseFloat W (f !!! 0%nat)) as [amount [err|]]; [by exists []; eexists|].
  destruct (strconv.Atoi (f !!! 2%nat)) as [year [err|]] eqn:Hyear; [by exists []; eexists|].
  rewrite (whatifMonth_after_year _ _ _ Hyear).
  destruct (ifIBought_logs_only W cq (f !!! 1%nat) defaultCurrency year
              (if decide (length f = 4%nat) then year else 0) amount)
    as (r & evs & Hbought & Hevs).
  run_M. rewrite Hbought.
  assert (Forall (λ e, match e with
                       | Logged _ => True
                       | SentText to _ => to = MsgChat m
                       | SentSticker _ => False
                       end) evs) as Hlogs.
  { eapply Forall_impl; [exact Hevs|]. by intros e [line ->]. }
  destruct r as [err|[[u new] oldPrice]]; by eexists evs, _.
Qed.

Lemma whatif_always_answers_witness :
  strs.Fields (Text {| MsgChat := 1; Text := "/whatif 100 DOGE 2018" |}) ≠ []
  ∧ ∃ evs s,
      whatif Fixture.july (Fixture.priced 200 2000)
        {| MsgChat := 1; Text := "/whatif 100 DOGE 2018" |}
      = (Returned (), evs ++ [SentText 1 s])
      ∧ Forall (λ e, match e with
                     | Logged _ => True
                     | SentText to _ => to = 1
                     | SentSticker _ => False
                     end) evs.
Proof.
  split; [discriminate|].
  apply (proj1 (whatif_always_answers Fixture.july (Fixture.priced 200 2000)
                  {| MsgChat := 1; Text := "/whatif 100 DOGE 2018" |})).
  discriminate.
Defined.

(** ** The inline-query handler *)

Lemma Split_from_not_nil (sep : ascii) (s cur : string) : Split_from sep cur s ≠ [].
Proof.
  revert cur. induction s as [|c s IH]; intros cur; simpl; [done|].
  case_decide; [done|apply IH].
Qed.

(** [strings.Split] always gives at least one piece, so the first check of
    the handler never fires. *)
Lemma Split_not_nil (s : string) (sep : ascii) : Split s sep ≠ [].
Proof. apply Split_from_not_nil. Qed.

Lemma onQuery_cases (W : World) (cq : coinQuerier) (answerErr : option error) (q : Query.t) :
  ∃ raw rest,
    Split (Query.Text q) " " = raw :: rest
    ∧ ((TrimSpace raw = EmptyString ∧ onQuery W cq answerErr q = (Returned (), []))
       ∨ (TrimSpace raw ≠ EmptyString
          ∧ ∃ err,
              coinInfo cq (TrimSpace raw) = inl err
              ∧ onQuery W cq answerErr q
                = (Returned (),
                   [Did (Logged ("cannot query inline token infos: " +:+ Error err))]))
       ∨ (TrimSpace raw ≠ EmptyString
          ∧ ∃ data e,
              coinInfo cq (TrimSpace raw) = inr data
              ∧ queryMessage W cq (TrimSpace raw) defaultCurrency = (Panicked e, [])
              ∧ onQuery W cq answerErr q = (Panicked e, []))
       ∨ (TrimSpace raw ≠ EmptyString
          ∧ ∃ data text logs,
              coinInfo cq (TrimSpace raw) = inr data
              ∧ queryMessage W cq (TrimSpace raw) defaultCurrency = (Returned text, logs)
              ∧ (logs = [] ∨ ∃ line, logs = [Logged line])
              ∧ onQuery W cq answerErr q
                = (Returned (),
                   (Did <$> logs)
                   ++ [Answered q
                         {| QueryResponse.Results :=
                              [ {| ArticleResult.ID := "0";
                                   ArticleResult.Title :=
                                     CoinsID.Name data +:+ " (" +:+ TrimSpace raw
                                       +:+ ") informations";
                                   ArticleResult.Text := text;
                                   ArticleResult.Description :=
                                     "Get current price, market cap infos about "
                                       +:+ CoinsID.Name data +:+ "!";
                                   ArticleResult.ThumbURL :=
                                     ImageItem.Large (CoinsID.Image data) |} ];
                            QueryResponse.CacheTime := 1 |}]
                   ++ match answerErr with
                      | Some err => [Did (Logged (Error err))]
                      | None => []
                      end))).
Proof.
  unfold onQuery. pose proof (Split_not_nil (Query.Text q) " ") as Hsplit.
  destruct (Split (Query.Text q) " ") as [|raw rest]; [done|]. exists raw, rest.
  split; [done|].
  assert (String.length (TrimSpace raw) = 0%nat ↔ TrimSpace raw = EmptyString) as Hlen
    by (by destruct (TrimSpace raw)).
  case_decide as Hblank; [left; by split; [apply Hlen|]|].
  assert (TrimSpace raw ≠ EmptyString) as Htoken by (by rewrite <- Hlen).
  destruct (coinInfo cq (TrimSpace raw)) as [err|data].
  { right; left. split; [done|]. by exists err. }
  destruct (queryMessage_cases W cq (TrimSpace raw) defaultCurrency)
    as [[s Hs]|[[line Hline]|(e & p & He & _)]].
  - right; right; right. split; [done|]. exists data, s, []. rewrite Hs.
    split; [done|]. split; [done|]. split; [by left|done].
  - right; right; right. split; [done|]. exists data, cannotQuery, [Logged line].
    rewrite Hline. split; [done|]. split; [done|]. split; [right; by exists line|done].
  - right; right; left. split; [done|]. exists data, e. by rewrite He.
Qed.

(** X17.  An inline query whose first piece, up to the first space, is empty
    or white space only is dropped without a trace: such are the empty query
    and every query that starts with a space, whatever follows. *)
Theorem onQuery_blank (W : World) (cq : coinQuerier) (answerErr : option error)
    (q : Query.t) :
  (TrimSpace (default EmptyString (head (Split (Query.Text q) " "))) = EmptyString →
   onQuery W cq answerErr q = (Returned (), []))
  ∧ (Query.Text q = EmptyString → onQuery W cq answerErr q = (Returned (), []))
  ∧ (∀ rest, Query.Text q = String " " rest →
       onQuery W cq answerErr q = (Returned (), [])).
Proof.
  assert (TrimSpace (default EmptyString (head (Split (Query.Text q) " "))) = EmptyString →
          onQuery W cq answerErr q = (Returned (), [])) as Hblank.
  { destruct (onQuery_cases W cq answerErr q) as (raw & rest & -> & Hcases). simpl.
    intros Hraw.
    destruct Hcases as [[_ H]|[[Hne _]|[[Hne _]|[Hne _]]]]; done. }
  split; [done|]. split.
  - intros Hq. apply Hblank. by rewrite Hq.
  - intros rest Hq. apply Hblank. by rewrite Hq.
Qed.

Lemma onQuery_blank_witness :
  Query.Text {| Query.ID := "7"; Query.Text := " eth" |} = String " " "eth"
  ∧ onQuery Fixture.july Scenario.described None
      {| Query.ID := "7"; Query.Text := " eth" |}
    = (Returned (), []).
Proof.
  split; [reflexivity|].
  exact (proj2 (proj2 (onQuery_blank Fixture.july Scenario.described None
                         {| Query.ID := "7"; Query.Text := " eth" |})) "eth"%string eq_refl).
Defined.

(** X18.  An inline query is answered at most once, and only when its first
    piece names a coin of the cache whose information the service gives.
    The answer is to that query, with a cache time of 1 and one article: its
    identifier is ["0"], its title and description carry the name of the coin,
    its thumbnail is the large image of the coin and its text is the reply of
    [queryMessage] for the piece in [USD].  Everything else the handler does
    is logging. *)
Theorem onQuery_answers_once (W : World) (cq : coinQuerier) (answerErr : option error)
    (q q' : Query.t) (response : QueryResponse.t) :
  Answered q' response ∈ (onQuery W cq answerErr q).2 →
  q' = q
  ∧ QueryResponse.CacheTime response = 1
  ∧ (∃ token data text logs,
       token ≠ EmptyString
       ∧ coinInfo cq token = inr data
       ∧ queryMessage W cq token defaultCurrency = (Returned text, logs)
       ∧ QueryResponse.Results response
         = [ {| ArticleResult.ID := "0";
                ArticleResult.Title :=
                  CoinsID.Name data +:+ " (" +:+ token +:+ ") informations";
                ArticleResult.Text := text;
                ArticleResult.Description :=
                  "Get current price, market cap infos about " +:+ CoinsID.Name data +:+ "!";
                ArticleResult.ThumbURL := ImageItem.Large (CoinsID.Image data) |} ])
  ∧ (∃ before after,
       (onQuery W cq answerErr q).2 = before ++ Answered q' response :: after
       ∧ Forall (λ e, ∃ line, e = Did (Logged line)) (before ++ after)).
Proof.
  destruct (onQuery_cases W cq answerErr q) as (raw & rest & _ & Hcases).
  destruct Hcases
    as [[_ ->]|[(_ & err & _ & ->)|[(_ & data & e & _ & _ & ->)
        |(Htoken & data & text & logs & Hinfo & Hreply & Hlogs & ->)]]]; simpl.
  - by intros ?%elem_of_nil.
  - intros [=]%list_elem_of_singleton.
  - by intros ?%elem_of_nil.
  - assert (Forall (λ e, ∃ line, e = Did (Logged line)) (Did <$> logs)) as Hbefore.
    { destruct Hlogs as [->|[line ->]]; repeat constructor. by eexists. }
    assert (Forall (λ e, ∃ line, e = Did (Logged line))
              match answerErr with
              | Some err => [Did (Logged (Error err))]
              | None => []
              end) as Hafter.
    { destruct answerErr; repeat constructor. by eexists. }
    intros [Hin|[Hin|Hin]%elem_of_cons]%elem_of_app.
    + apply (proj1 (Forall_forall _ _) Hbefore) in Hin as [line [=]].
    + injection Hin as -> ->. split; [done|]. split; [done|]. split.
      * by exists (TrimSpace raw), data, text, logs.
      * eexists _, _. split; [done|]. by apply Forall_app.
    + apply (proj1 (Forall_forall _ _) Hafter) in Hin as [line [=]].
Qed.

Lemma onQuery_answers_once_witness :
  Answered {| Query.ID := "7"; Query.Text := "eth now" |}
    {| QueryResponse.Results :=
         [ {| ArticleResult.ID := "0";
              ArticleResult.Title := "Ethereum (eth) informations";
              ArticleResult.Text :=
                "Ethereum ($ETH)

Price: $2,000.00 (0.62% 🤑)
Market cap: $240,000,000,000.00(-0.50% 🤑)
ATH: $4,878.25 (10 November 2021) 🌝
Last 24H high: $2,050.50
Last 24H low: $1,980.25
";
              ArticleResult.Description :=
                "Get current price, market cap infos about Ethereum!";
              ArticleResult.ThumbURL := "https://example.org/ethereum.png" |} ];
       QueryResponse.CacheTime := 1 |}
  ∈ (onQuery Fixture.july Scenario.described (Some (errorString "query is too old"))
       {| Query.ID := "7"; Query.Text := "eth now" |}).2
  ∧ ∃ before after,
      (onQuery Fixture.july Scenario.described (Some (errorString "query is too old"))
         {| Query.ID := "7"; Query.Text := "eth now" |}).2
      = before
        ++ Answered {| Query.ID := "7"; Query.Text := "eth now" |}
             {| QueryResponse.Results :=
                  [ {| ArticleResult.ID := "0";
                       ArticleResult.Title := "Ethereum (eth) informations";
                       ArticleResult.Text :=
                         "Ethereum ($ETH)

Price: $2,000.00 (0.62% 🤑)
Market cap: $240,000,000,000.00(-0.50% 🤑)
ATH: $4,878.25 (10 November 2021) 🌝
Last 24H high: $2,050.50
Last 24H low: $1,980.25
";
                       ArticleResult.Description :=
                         "Get current price, market cap infos about Ethereum!";
                       ArticleResult.ThumbURL := "https://example.org/ethereum.png" |} ];
                QueryResponse.CacheTime := 1 |}
           :: after
      ∧ Forall (λ e, ∃ line, e = Did (Logged line)) (before ++ after).
Proof.
  assert (Answered {| Query.ID := "7"; Query.Text := "eth now" |}
    {| QueryResponse.Results :=
         [ {| ArticleResult.ID := "0";
              ArticleResult.Title := "Ethereum (eth) informations";
              ArticleResult.Text :=
                "Ethereum ($ETH)

Price: $2,000.00 (0.62% 🤑)
Market cap: $240,000,000,000.00(-0.50% 🤑)
ATH: $4,878.25 (10 November 2021) 🌝
Last 24H high: $2,050.50
Last 24H low: $1,980.25
";
              ArticleResult.Description :=
                "Get current price, market cap infos about Ethereum!";
              ArticleResult.ThumbURL := "https://example.org/ethereum.png" |} ];
       QueryResponse.CacheTime := 1 |}
  ∈ (onQuery Fixture.july Scenario.described (Some (errorString "query is too old"))
       {| Query.ID := "7"; Query.Text := "eth now" |}).2) as Hin.
  { vm_compute. apply list_elem_of_here. }
  split; [exact Hin|].
  exact (proj2 (proj2 (proj2 (onQuery_answers_once _ _ _ _ _ _ Hin)))).
Defined.

(** ** The two revisions of the text handler *)








(** Where the two revisions part: a space after the [%], and a bare [%]. *)
Example revisions_differ :
  onText Fixture.july (Fixture.priced 200 2000) {| MsgChat := 1; Text := "% eth" |}
  = onText Fixture.july (Fixture.priced 200 2000) {| MsgChat := 1; Text := "%eth" |}
  ∧ Rev0.onText Fixture.july (Fixture.priced 200 2000) {| MsgChat := 1; Text := "% eth" |}
    = (Returned (), [SentText 1 " not supported"; SentSticker 1])
  ∧ onText Fixture.july (Fixture.priced 200 2000) {| MsgChat := 1; Text := "%" |}
    = (Returned (), [Logged "cannot split query data: no fields available"])
  ∧ Rev0.onText Fixture.july (Fixture.priced 200 2000) {| MsgChat := 1; Text := "%" |}
    = (Returned (), [SentText 1 " not supported"; SentSticker 1]).
Proof. repeat split; vm_compute; reflexivity. Qed.
